(** * systray: the menu compiler, the action dispatcher and the icon lifecycle

    A shallow embedding of [src/systray/systrayicon.py].  Python objects are
    dynamically typed, so menu specifications are embedded as a type of Python
    values; the controller's methods become state-passing functions that
    return either a result or the exception they raise. *)

From Stdlib Require Import ZArith List String Lia Bool.
From stdpp Require Import base option list strings gmap sorting.

Open Scope Z_scope.
Open Scope string_scope.

(** ** Python values *)

(** A function object is identified by its name. *)
Definition fn := string.

Inductive MenuOptionClass := KMenuOption | KCheckBoxMenuOption.

(** The attributes of a [MenuOption] instance, over the type [V] of values.
    [check_hook] and [checked] exist on [CheckBoxMenuOption] instances only;
    [fstate_slot] is the instance attribute [fstate] of a plain [MenuOption]
    (on a [CheckBoxMenuOption] the class property [fstate] shadows it). *)
Record MenuOptionOf (V : Type) := mkMenuOption {
  klass : MenuOptionClass;
  text : V;
  icon_path : V;
  callback : V;
  submenu : V;
  ftype : V;
  fstate_slot : V;
  action_id : V;
  menu_handle : V;
  menu_position : V;
  check_hook : V;
  checked : V
}.

Arguments mkMenuOption {V}.
Arguments klass {V}.
Arguments text {V}.
Arguments icon_path {V}.
Arguments callback {V}.
Arguments submenu {V}.
Arguments ftype {V}.
Arguments fstate_slot {V}.
Arguments action_id {V}.
Arguments menu_handle {V}.
Arguments menu_position {V}.
Arguments check_hook {V}.
Arguments checked {V}.

#[warnings="-register-all"]
Inductive value : Type :=
| VNone
| VBool (b : bool)
| VInt (z : Z)
| VStr (s : string)
| VFun (f : fn)                          (* a function: callable *)
| VTuple (items : list value)
| VList (items : list value)
| VDict (items : list (string * value))  (* keys in insertion order *)
| VObj (o : MenuOptionOf value)          (* a MenuOption instance *)
| VOther (cls : string).                 (* an instance of some other class *)

Definition MenuOption := MenuOptionOf value.

Inductive exn :=
| TypeError (msg : string)
| ValueError (args : list value)
| AttributeError (msg : string)
| KeyError (key : Z)
| Exception_ (args : list value).

(** [bool(v)] *)
Definition truthy (v : value) : bool :=
  match v with
  | VNone => false
  | VBool b => b
  | VInt z => negb (Z.eqb z 0)
  | VStr s => negb (String.eqb s "")
  | VFun _ => true
  | VTuple l | VList l => negb (Nat.eqb (List.length l) 0)
  | VDict l => negb (Nat.eqb (List.length l) 0)
  | VObj _ => true
  | VOther _ => true
  end.

(** [a or b] *)
Definition py_or (a b : value) : value := if truthy a then a else b.

(** [callable(v)] *)
Definition callable (v : value) : bool :=
  match v with VFun _ => true | _ => false end.

(** [type(v).__name__] *)
Definition type_name (v : value) : string :=
  match v with
  | VNone => "NoneType"
  | VBool _ => "bool"
  | VInt _ => "int"
  | VStr _ => "str"
  | VFun _ => "function"
  | VTuple _ => "tuple"
  | VList _ => "list"
  | VDict _ => "dict"
  | VObj o => match klass o with
              | KMenuOption => "MenuOption"
              | KCheckBoxMenuOption => "CheckBoxMenuOption"
              end
  | VOther c => c
  end.

Fixpoint chars (s : string) : list value :=
  match s with
  | EmptyString => []
  | String c r => VStr (String c EmptyString) :: chars r
  end.

(** [iter(v)], run to the end: the items a [for] loop over [v] visits, or
    the [TypeError] of a value that is not iterable. *)
Definition iterate (v : value) : exn + list value :=
  match v with
  | VTuple l | VList l => inr l
  | VDict kv => inr (map (fun p => VStr (fst p)) kv)
  | VStr s => inr (chars s)
  | _ => inl (TypeError ("'" ++ type_name v ++ "' object is not iterable"))
  end.

(** ** [_non_string_iterable] *)

Definition _non_string_iterable (obj : value) : bool :=
  match iterate obj with
  | inl _ => false
  | inr _ => match obj with VStr _ => false | _ => true end
  end.

(** ** [MenuOption] *)

(** [x == y] where [y] is a string. *)
Definition eq_str (x : value) (y : string) : bool :=
  match x with VStr s => String.eqb s y | _ => false end.

Fixpoint assoc (k : string) (kv : list (string * value)) : option value :=
  match kv with
  | [] => None
  | (k', v) :: r => if String.eqb k k' then Some v else assoc k r
  end.

Definition MenuOption_params : list string :=
  ["text"; "icon_path"; "callback"; "submenu"].

Fixpoint index_of (k : string) (l : list string) : option nat :=
  match l with
  | [] => None
  | x :: r => if String.eqb k x then Some 0%nat else option_map S (index_of k r)
  end.

(** A keyword argument is accepted when it names a parameter that no
    positional argument has filled. *)
Definition keyword_ok (npos : nat) (k : string) : bool :=
  match index_of k MenuOption_params with
  | Some i => Nat.leb npos i
  | None => false
  end.

(** The value bound to the parameter at position [i] named [k]. *)
Definition bound (args : list value) (kwargs : list (string * value))
    (i : nat) (k : string) : option value :=
  match nth_error args i with
  | Some v => Some v
  | None => assoc k kwargs
  end.

(** The constructor call of [MenuOption] with positional arguments [args] and
    keyword arguments [kwargs], bound by the signature
    [__init__(self, text, icon_path=None, callback=None, submenu=None)]. *)
Definition MenuOption_init (args : list value) (kwargs : list (string * value))
    : exn + MenuOption :=
  if Nat.ltb 4 (List.length args) then
    inl (TypeError "__init__() takes from 2 to 5 positional arguments")
  else if negb (forallb (fun p => keyword_ok (List.length args) (fst p)) kwargs) then
    inl (TypeError "__init__() got an unexpected keyword argument")
  else
    match bound args kwargs 0 "text" with
    | None => inl (TypeError "__init__() missing 1 required positional argument: 'text'")
    | Some t =>
        inr {| klass := KMenuOption;
               text := t;
               icon_path := default VNone (bound args kwargs 1 "icon_path");
               callback := default VNone (bound args kwargs 2 "callback");
               submenu := default VNone (bound args kwargs 3 "submenu");
               ftype := VNone;
               fstate_slot := VNone;
               action_id := VNone;
               menu_handle := VNone;
               menu_position := VNone;
               check_hook := VNone;
               checked := VNone |}
    end.

(** [copy(o)]: a new object with the same attributes.  Values are immutable
    here, so the copy is the record itself; what matters is that later
    attribute assignments build a new record and leave the caller's alone. *)
Definition copy (o : MenuOption) : MenuOption := o.

Definition set_action_id (v : value) (o : MenuOption) : MenuOption :=
  mkMenuOption (klass o) (text o) (icon_path o) (callback o) (submenu o) (ftype o)
    (fstate_slot o) v (menu_handle o) (menu_position o) (check_hook o) (checked o).

Definition set_callback (v : value) (o : MenuOption) : MenuOption :=
  mkMenuOption (klass o) (text o) (icon_path o) v (submenu o) (ftype o)
    (fstate_slot o) (action_id o) (menu_handle o) (menu_position o) (check_hook o)
    (checked o).

Definition set_submenu (v : value) (o : MenuOption) : MenuOption :=
  mkMenuOption (klass o) (text o) (icon_path o) (callback o) v (ftype o)
    (fstate_slot o) (action_id o) (menu_handle o) (menu_position o) (check_hook o)
    (checked o).

Definition set_checked (v : value) (o : MenuOption) : MenuOption :=
  mkMenuOption (klass o) (text o) (icon_path o) (callback o) (submenu o) (ftype o)
    (fstate_slot o) (action_id o) (menu_handle o) (menu_position o) (check_hook o) v.

(** ** Computations that mutate a state and may raise *)

(** [Unfinished] is the answer of a recursion that was given too little
    fuel; [recompile_total] below shows the compiler never gives it. *)
Inductive outcome (A : Type) :=
| Return (a : A)
| Raise (e : exn)
| Unfinished.

Arguments Return {A}.
Arguments Raise {A}.
Arguments Unfinished {A}.

Definition M (S A : Type) : Type := S -> outcome A * S.

Definition ret {S A} (a : A) : M S A := fun s => (Return a, s).
Definition raise {S A} (e : exn) : M S A := fun s => (Raise e, s).
Definition unfinished {S A} : M S A := fun s => (Unfinished, s).

Definition bind {S A B} (m : M S A) (k : A -> M S B) : M S B :=
  fun s =>
    match m s with
    | (Return a, s') => k a s'
    | (Raise e, s') => (Raise e, s')
    | (Unfinished, s') => (Unfinished, s')
    end.

Definition gets {S A} (f : S -> A) : M S A := fun s => (Return (f s), s).
Definition modify {S} (f : S -> S) : M S unit := fun s => (Return tt, f s).

Definition lift {S A} (r : exn + A) : M S A :=
  match r with inl e => raise e | inr a => ret a end.

Declare Scope py_scope.
Delimit Scope py_scope with py.
Notation "x <- m ;; k" := (bind m (fun x => k))
  (at level 100, m at next level, right associativity) : py_scope.
Notation "m ;;; k" := (bind m (fun _ => k))
  (at level 100, right associativity) : py_scope.
Open Scope py_scope.

(** ** [SysTrayIcon] *)

(** The [NotifyData] structure handed to [Shell_NotifyIcon]. *)
Record NotifyData := mkNotifyData {
  nd_hwnd : Z;
  nd_flags : Z;
  nd_message : Z;
  nd_hicon : Z;
  nd_tip : value
}.

Record SysTrayIcon := mkSysTrayIcon {
  _icon : option string;
  _icon_shared : bool;
  _hover_text : value;
  _on_quit : value;
  _next_action_id : Z;
  _menu_actions_by_id : gmap Z value;
  _menu_options : list value;
  _default_menu_index : Z;
  _notify_id : option NotifyData;
  _hwnd : option Z;
  _hicon : Z;
  _menu : option Z
}.

Definition QUIT : string := "QUIT".
Definition SPECIAL_ACTIONS : list string := [QUIT].
Definition FIRST_ID : Z := 1023.

Definition set_next_action_id (z : Z) (t : SysTrayIcon) : SysTrayIcon :=
  mkSysTrayIcon (_icon t) (_icon_shared t) (_hover_text t) (_on_quit t) z
    (_menu_actions_by_id t) (_menu_options t) (_default_menu_index t) (_notify_id t)
    (_hwnd t) (_hicon t) (_menu t).

Definition set_menu_actions_by_id (m : gmap Z value) (t : SysTrayIcon) : SysTrayIcon :=
  mkSysTrayIcon (_icon t) (_icon_shared t) (_hover_text t) (_on_quit t)
    (_next_action_id t) m (_menu_options t) (_default_menu_index t) (_notify_id t)
    (_hwnd t) (_hicon t) (_menu t).

Definition set_menu_options (l : list value) (t : SysTrayIcon) : SysTrayIcon :=
  mkSysTrayIcon (_icon t) (_icon_shared t) (_hover_text t) (_on_quit t)
    (_next_action_id t) (_menu_actions_by_id t) l (_default_menu_index t)
    (_notify_id t) (_hwnd t) (_hicon t) (_menu t).

(** [v in SysTrayIcon.SPECIAL_ACTIONS] *)
Definition in_special_actions (v : value) : bool :=
  existsb (eq_str v) SPECIAL_ACTIONS.

(** *** [_recompile_menu_options_with_ids] *)

(** The first statement of the loop body: the entry turned into a
    [MenuOption] of its own. *)
Definition to_menu_option (menu_option : value) : exn + MenuOption :=
  match menu_option with
  | VTuple args => MenuOption_init args []
  | VDict kwargs => MenuOption_init [] kwargs
  | VObj o => inr (copy o)
  | _ => inl (ValueError [VStr "Unknown menu option type";
                          VStr (type_name menu_option)])
  end.

(** One turn of the loop, up to [result.append]; [recur] is the method
    itself, called on the children. *)
Definition recompile_option (recur : value -> M SysTrayIcon (list value))
    (menu_option : value) : M SysTrayIcon value :=
  o <- lift (to_menu_option menu_option) ;;
  next <- gets _next_action_id ;;
  let o := set_action_id (VInt next) o in
  let sub := py_or (submenu o) (VBool (_non_string_iterable (callback o))) in
  if callable (callback o) || in_special_actions (callback o) then
    actions <- gets _menu_actions_by_id ;;
    modify (set_menu_actions_by_id (<[next := callback o]> actions)) ;;;
    ret (VObj o)
  else if truthy sub then
    children <- recur sub ;;
    ret (VObj (set_callback VNone (set_submenu (VList children) o)))
  else
    raise (Exception_ [VStr "Unknown item"; text o; icon_path o; callback o]).

(** The [for] loop: [result] is the list built so far. *)
Fixpoint recompile_loop (body : value -> M SysTrayIcon value)
    (items : list value) (result : list value) : M SysTrayIcon (list value) :=
  match items with
  | [] => ret result
  | menu_option :: rest =>
      o <- body menu_option ;;
      next <- gets _next_action_id ;;
      modify (set_next_action_id (next + 1)) ;;;
      recompile_loop body rest (result ++ [o])
  end.

Fixpoint recompile_fuel (fuel : nat) (menu_options : value)
    : M SysTrayIcon (list value) :=
  match fuel with
  | O => unfinished
  | S fuel' =>
      items <- lift (iterate menu_options) ;;
      recompile_loop (recompile_option (recompile_fuel fuel')) items []
  end.

(** The nesting depth of a value bounds the depth of the recursion. *)
Fixpoint depth (v : value) : nat :=
  match v with
  | VTuple l | VList l => S (list_max (map depth l))
  | VDict kv => S (list_max (map (fun p => depth (snd p)) kv))
  | VObj o => S (depth (submenu o))
  | _ => 0%nat
  end.

Definition _recompile_menu_options_with_ids (menu_options : value)
    : M SysTrayIcon (list value) :=
  recompile_fuel (S (depth menu_options)) menu_options.

(** *** The machine: the controller, the caller's lists and the shell *)

(** What the native shell and the callbacks do is recorded, in order. *)
Inductive event :=
| Called (f : fn) (controller : SysTrayIcon)   (* [f(self)] *)
| RegisterClass
| CreateWindowEx (hwnd : Z)
| DestroyWindow (hwnd : option Z)
| LoadImage (path : string) (hicon : Z)
| LoadIcon (hicon : Z)
| DestroyIcon (hicon : Z)
| Shell_NotifyIcon (message : Z) (hwnd : option Z) (nid : option NotifyData)
| PostQuitMessage (code : Z)
| CheckMenuItem (menu position flags : Z).

(** The part of the world behind [win32_adapter] and [os.path]:
    [files] are the paths for which [os.path.isfile] holds, [icons] those
    [LoadImage] can read, [next_handle] the next handle the shell hands out,
    [shared_icon] the handle of the stock application icon, [menu_state]
    what [GetMenuState] answers, [returns] what calling a function object
    without arguments returns now. *)
Record Native := mkNative {
  log : list event;
  files : list string;
  icons : list string;
  next_handle : Z;
  shared_icon : Z;
  menu_state : gmap (Z * Z) Z;
  returns : list (fn * value)
}.

Definition loc := nat.

Record Machine := mkMachine {
  self : SysTrayIcon;
  heap : gmap loc (list value);
  os : Native
}.

Definition on_self {A} (m : M SysTrayIcon A) : M Machine A :=
  fun s => let (r, t) := m (self s) in (r, mkMachine t (heap s) (os s)).

Definition on_os {A} (m : M Native A) : M Machine A :=
  fun s => let (r, n) := m (os s) in (r, mkMachine (self s) (heap s) n).

Definition set_heap (h : gmap loc (list value)) (s : Machine) : Machine :=
  mkMachine (self s) h (os s).

Definition emit (e : event) : M Native unit :=
  modify (fun n => mkNative (log n ++ [e]) (files n) (icons n) (next_handle n)
                     (shared_icon n) (menu_state n) (returns n)).

(** *** [_prepare_menu_options] *)

(** The argument [menu_options] of the constructor: a value nobody else
    holds, or the list object at an address of the caller's heap. *)
Inductive argument :=
| ByValue (v : value)
| ListObject (l : loc).

Definition quit_option : exn + MenuOption :=
  MenuOption_init [VStr "Quit"] [("callback", VStr QUIT)].

Definition alloc (items : list value) : M Machine loc :=
  h <- gets heap ;;
  let l := fresh (dom h) in
  modify (set_heap (<[l := items]> h)) ;;;
  ret l.

(** [menu_options or ()] then [list(menu_options)] for a tuple: the list
    object the synthetic entry is appended to, or the [AttributeError] of a
    value without [append]. *)
Definition target_list (menu_options : argument) : M Machine loc :=
  match menu_options with
  | ListObject l =>
      h <- gets heap ;;
      match h !! l with
      | Some [] => alloc []            (* falsy: replaced by (), then copied *)
      | Some _ => ret l
      | None => raise (AttributeError "no object at this address")
      end
  | ByValue v =>
      match py_or v (VTuple []) with
      | VTuple items => alloc items
      | VList items => alloc items
      | v' => raise (AttributeError
                       ("'" ++ type_name v' ++ "' object has no attribute 'append'"))
      end
  end.

Definition append (l : loc) (v : value) : M Machine unit :=
  h <- gets heap ;;
  modify (set_heap (<[l := (default [] (h !! l) ++ [v])%list]> h)).

Definition _prepare_menu_options (menu_options : argument) : M Machine unit :=
  l <- target_list menu_options ;;
  quit <- lift quit_option ;;
  append l (VObj quit) ;;;
  on_self (modify (set_next_action_id FIRST_ID)) ;;;
  on_self (modify (set_menu_actions_by_id ∅)) ;;;
  h <- gets heap ;;
  compiled <- on_self (_recompile_menu_options_with_ids
                         (VList (default [] (h !! l)))) ;;
  on_self (modify (set_menu_options compiled)).

(** *** [__init__] *)

(** The attributes the constructor assigns before it prepares the menu. *)
Definition first_attributes (icon : option string) (hover_text on_quit : value)
    : SysTrayIcon :=
  mkSysTrayIcon icon false hover_text on_quit FIRST_ID ∅ [] 0 None None 0 None.

(** The attributes it assigns afterwards. *)
Definition last_attributes (default_menu_index : option Z) (t : SysTrayIcon)
    : SysTrayIcon :=
  mkSysTrayIcon (_icon t) (_icon_shared t) (_hover_text t) (_on_quit t)
    (_next_action_id t) (_menu_actions_by_id t) (_menu_options t)
    (default 0 default_menu_index) None None 0 None.

(** The attributes are assigned in the order of the source; the window
    class name plays no part in what follows and is left out. *)
Definition SysTrayIcon_init (icon : option string) (hover_text : value)
    (menu_options : argument)
    (on_quit : value) (default_menu_index : option Z) : M Machine unit :=
  on_self (modify (fun _ => first_attributes icon hover_text on_quit)) ;;;
  _prepare_menu_options menu_options ;;;
  on_self (modify (last_attributes default_menu_index)) ;;;
  on_os (emit RegisterClass).

(** *** The compiled tree *)

(** The compiler's test for a leaf. *)
Definition is_leaf (o : MenuOption) : bool :=
  callable (callback o) || in_special_actions (callback o).

(** The nodes of a compiled entry in pre-order: the entry, then, for a
    submenu, the nodes of its children in display order. *)
Fixpoint walk (v : value) : list MenuOption :=
  match v with
  | VObj o =>
      o :: (if is_leaf o then []
            else match submenu o with
                 | VList children => flat_map walk children
                 | _ => []
                 end)
  | _ => []
  end.

Definition walk_tree (tree : list value) : list MenuOption := flat_map walk tree.

Definition id_of (o : MenuOption) : option Z :=
  match action_id o with VInt z => Some z | _ => None end.

(** The action ids of a compiled tree along the pre-order walk. *)
Definition tree_ids (tree : list value) : list Z := omap id_of (walk_tree tree).

(** *** [_execute_menu_option] *)

(** [f(self)]: the call is recorded; what the callback does with the
    controller is its own business and is not followed. *)
Definition call_with_self (f : value) : M Machine unit :=
  match f with
  | VFun name => t <- gets self ;; on_os (emit (Called name t))
  | _ => raise (TypeError ("'" ++ type_name f ++ "' object is not callable"))
  end.

Definition _execute_menu_option (action_id : Z) : M Machine unit :=
  actions <- gets (fun s => _menu_actions_by_id (self s)) ;;
  match actions !! action_id with
  | None => raise (KeyError action_id)
  | Some menu_action =>
      if eq_str menu_action QUIT then
        hwnd <- gets (fun s => _hwnd (self s)) ;;
        on_os (emit (DestroyWindow hwnd))
      else call_with_self menu_action
  end.

(** ** The parts that talk to [win32_adapter] *)

Definition set_klass (k : MenuOptionClass) (o : MenuOption) : MenuOption :=
  mkMenuOption k (text o) (icon_path o) (callback o) (submenu o) (ftype o)
    (fstate_slot o) (action_id o) (menu_handle o) (menu_position o) (check_hook o)
    (checked o).

Definition set_check_hook (v : value) (o : MenuOption) : MenuOption :=
  mkMenuOption (klass o) (text o) (icon_path o) (callback o) (submenu o) (ftype o)
    (fstate_slot o) (action_id o) (menu_handle o) (menu_position o) v (checked o).

(** The names an attribute assignment [o.name = v] can use. *)
Inductive attr :=
| a_text | a_icon_path | a_callback | a_submenu | a_ftype | a_fstate
| a_action_id | a_menu_handle | a_menu_position | a_check_hook | a_checked.

(** [o.a = v].  On a [CheckBoxMenuOption] the name [fstate] is a property
    of the class and the assignment runs its setter, whose body is a bare
    [return]; every other name is an ordinary instance attribute. *)
Definition setattr (o : MenuOption) (a : attr) (v : value) : MenuOption :=
  match a with
  | a_text =>
      mkMenuOption (klass o) v (icon_path o) (callback o) (submenu o) (ftype o)
        (fstate_slot o) (action_id o) (menu_handle o) (menu_position o)
        (check_hook o) (checked o)
  | a_icon_path =>
      mkMenuOption (klass o) (text o) v (callback o) (submenu o) (ftype o)
        (fstate_slot o) (action_id o) (menu_handle o) (menu_position o)
        (check_hook o) (checked o)
  | a_callback => set_callback v o
  | a_submenu => set_submenu v o
  | a_ftype =>
      mkMenuOption (klass o) (text o) (icon_path o) (callback o) (submenu o) v
        (fstate_slot o) (action_id o) (menu_handle o) (menu_position o)
        (check_hook o) (checked o)
  | a_fstate =>
      match klass o with
      | KCheckBoxMenuOption => o
      | KMenuOption =>
          mkMenuOption (klass o) (text o) (icon_path o) (callback o) (submenu o)
            (ftype o) v (action_id o) (menu_handle o) (menu_position o)
            (check_hook o) (checked o)
      end
  | a_action_id => set_action_id v o
  | a_menu_handle =>
      mkMenuOption (klass o) (text o) (icon_path o) (callback o) (submenu o)
        (ftype o) (fstate_slot o) (action_id o) v (menu_position o)
        (check_hook o) (checked o)
  | a_menu_position =>
      mkMenuOption (klass o) (text o) (icon_path o) (callback o) (submenu o)
        (ftype o) (fstate_slot o) (action_id o) (menu_handle o) v
        (check_hook o) (checked o)
  | a_check_hook => set_check_hook v o
  | a_checked => set_checked v o
  end.

(** [f()] for a function object [f]. *)
Definition call0 (f : value) : M Native value :=
  match f with
  | VFun name => gets (fun n => default VNone (assoc name (returns n)))
  | _ => raise (TypeError ("'" ++ type_name f ++ "' object is not callable"))
  end.

(** [CheckBoxMenuOption._get_checked] *)
Definition _get_checked (o : MenuOption) : M Native MenuOption :=
  if truthy (check_hook o) && callable (check_hook o) then
    r <- call0 (check_hook o) ;;
    ret (set_checked (VBool (truthy r)) o)
  else ret o.

(** The constructor of [CheckBoxMenuOption]: [MenuOption.__init__] runs on
    the new instance (its [self.fstate = None] goes through the setter),
    then the hook and the flag are stored and the flag is recomputed. *)
Definition CheckBoxMenuOption_init (args : list value)
    (kwargs : list (string * value)) (hook checked0 : value)
    : M Native MenuOption :=
  o <- lift (MenuOption_init args kwargs) ;;
  let o := set_klass KCheckBoxMenuOption o in
  let o := setattr o a_fstate VNone in
  let o := setattr o a_check_hook hook in
  let o := setattr o a_checked checked0 in
  _get_checked o.

(** [x != z] for an integer [z]: a [bool] compares as 0 or 1. *)
Definition ne_int (x : value) (z : Z) : bool :=
  match x with
  | VBool b => negb (Z.eqb (Z.b2z b) z)
  | VInt y => negb (Z.eqb y z)
  | _ => true
  end.

Definition as_int (v : value) : M Native Z :=
  match v with
  | VInt z => ret z
  | VBool b => ret (Z.b2z b)
  | _ => raise (TypeError "an integer is required")
  end.

Section Win32.

(** The constants of [win32_adapter], which is not part of the sources
    read here: they are parameters of what follows. *)
Variables MFS_CHECKED MFS_UNCHECKED MF_BYPOSITION : Z.
Variables WM_LBUTTONDBLCLK WM_RBUTTONUP WM_LBUTTONUP WM_USER : Z.
Variables NIM_ADD NIM_MODIFY NIM_DELETE NIF_ICON NIF_MESSAGE NIF_TIP : Z.

(** [GetMenuState(menu, position, MF_BYPOSITION)]; -1 when there is no such
    item. *)
Definition GetMenuState (menu position : Z) : M Native Z :=
  gets (fun n => default (-1) (menu_state n !! (menu, position))).

(** [CheckMenuItem(menu, position, flags)]: the shell sets or clears the
    check bit of the item. *)
Definition do_CheckMenuItem (menu position flags : Z) : M Native unit :=
  emit (CheckMenuItem menu position flags) ;;;
  modify (fun n =>
    mkNative (log n) (files n) (icons n) (next_handle n) (shared_icon n)
      (alter (fun st => if Z.eqb (Z.land flags MFS_CHECKED) 0
                        then Z.land st (Z.lnot MFS_CHECKED)
                        else Z.lor st MFS_CHECKED)
             (menu, position) (menu_state n))
      (returns n)).

(** [MenuOption.refresh] and its override [CheckBoxMenuOption.refresh]. *)
Definition refresh (o : MenuOption) : M Native MenuOption :=
  match klass o with
  | KMenuOption => ret o
  | KCheckBoxMenuOption =>
      o <- _get_checked o ;;
      match menu_handle o with
      | VNone => ret o
      | handle =>
          menu <- as_int handle ;;
          position <- as_int (menu_position o) ;;
          st <- GetMenuState menu position ;;
          let menu_item_checked := Z.land st MFS_CHECKED in
          if ne_int (checked o) menu_item_checked then
            let u_check := if truthy (checked o) then MFS_CHECKED
                           else MFS_UNCHECKED in
            do_CheckMenuItem menu position (Z.lor MF_BYPOSITION u_check) ;;;
            ret o
          else ret o
      end
  end.

(** Reading [o.fstate]: the property getter on a [CheckBoxMenuOption], the
    instance attribute otherwise. *)
Definition get_fstate (o : MenuOption) : M Native (value * MenuOption) :=
  match klass o with
  | KMenuOption => ret (fstate_slot o, o)
  | KCheckBoxMenuOption =>
      o <- _get_checked o ;;
      ret (VInt (if truthy (checked o) then MFS_CHECKED else MFS_UNCHECKED), o)
  end.

(** *** The icon *)

Definition set_icon (p : option string) (t : SysTrayIcon) : SysTrayIcon :=
  mkSysTrayIcon p (_icon_shared t) (_hover_text t) (_on_quit t) (_next_action_id t)
    (_menu_actions_by_id t) (_menu_options t) (_default_menu_index t) (_notify_id t)
    (_hwnd t) (_hicon t) (_menu t).

Definition set_icon_shared (b : bool) (t : SysTrayIcon) : SysTrayIcon :=
  mkSysTrayIcon (_icon t) b (_hover_text t) (_on_quit t) (_next_action_id t)
    (_menu_actions_by_id t) (_menu_options t) (_default_menu_index t) (_notify_id t)
    (_hwnd t) (_hicon t) (_menu t).

Definition set_hover_text (v : value) (t : SysTrayIcon) : SysTrayIcon :=
  mkSysTrayIcon (_icon t) (_icon_shared t) v (_on_quit t) (_next_action_id t)
    (_menu_actions_by_id t) (_menu_options t) (_default_menu_index t) (_notify_id t)
    (_hwnd t) (_hicon t) (_menu t).

Definition set_notify_id (n : option NotifyData) (t : SysTrayIcon) : SysTrayIcon :=
  mkSysTrayIcon (_icon t) (_icon_shared t) (_hover_text t) (_on_quit t)
    (_next_action_id t) (_menu_actions_by_id t) (_menu_options t)
    (_default_menu_index t) n (_hwnd t) (_hicon t) (_menu t).

Definition set_hwnd (h : option Z) (t : SysTrayIcon) : SysTrayIcon :=
  mkSysTrayIcon (_icon t) (_icon_shared t) (_hover_text t) (_on_quit t)
    (_next_action_id t) (_menu_actions_by_id t) (_menu_options t)
    (_default_menu_index t) (_notify_id t) h (_hicon t) (_menu t).

Definition set_hicon (h : Z) (t : SysTrayIcon) : SysTrayIcon :=
  mkSysTrayIcon (_icon t) (_icon_shared t) (_hover_text t) (_on_quit t)
    (_next_action_id t) (_menu_actions_by_id t) (_menu_options t)
    (_default_menu_index t) (_notify_id t) (_hwnd t) h (_menu t).

Definition mem (p : string) (l : list string) : bool := existsb (String.eqb p) l.

(** A handle the shell has not handed out before. *)
Definition new_handle : M Native Z :=
  h <- gets next_handle ;;
  modify (fun n => mkNative (log n) (files n) (icons n) (h + 1) (shared_icon n)
                     (menu_state n) (returns n)) ;;;
  ret h.

(** [LoadImage(0, path, IMAGE_ICON, 0, 0, flags)]: a new handle, or 0 when
    the file holds no icon the shell can read. *)
Definition do_LoadImage (path : string) : M Native Z :=
  readable <- gets (fun n => mem path (icons n)) ;;
  h <- (if readable : bool then new_handle else ret 0) ;;
  emit (LoadImage path h) ;;;
  ret h.

(** [LoadIcon(0, IDI_APPLICATION)]: the stock icon, shared by all. *)
Definition do_LoadIcon : M Native Z :=
  h <- gets shared_icon ;;
  emit (LoadIcon h) ;;;
  ret h.

Definition when {S} (b : bool) (m : M S unit) : M S unit :=
  if b then m else ret tt.

Definition _load_icon : M Machine unit :=
  t <- gets self ;;
  when (negb (_icon_shared t) && negb (Z.eqb (_hicon t) 0))
    (on_os (emit (DestroyIcon (_hicon t))) ;;;
     on_self (modify (set_hicon 0))) ;;;
  icon <- gets (fun s => _icon (self s)) ;;
  hicon <- match icon with
           | None => ret 0
           | Some path =>
               isfile <- gets (fun s => mem path (files (os s))) ;;
               if isfile : bool then
                 h <- on_os (do_LoadImage path) ;;
                 on_self (modify (set_hicon h)) ;;;
                 on_self (modify (set_icon_shared false)) ;;;
                 ret h
               else ret 0
           end ;;
  when (Z.eqb hicon 0)
    (h <- on_os do_LoadIcon ;;
     on_self (modify (set_hicon h)) ;;;
     on_self (modify (set_icon_shared true)) ;;;
     on_self (modify (set_icon None))).

Definition _refresh_icon : M Machine unit :=
  hwnd <- gets (fun s => _hwnd (self s)) ;;
  match hwnd with
  | None => ret tt
  | Some h =>
      hicon <- gets (fun s => _hicon (self s)) ;;
      when (Z.eqb hicon 0) _load_icon ;;;
      t <- gets self ;;
      let message := match _notify_id t with Some _ => NIM_MODIFY | None => NIM_ADD end in
      let nid := mkNotifyData h (Z.lor (Z.lor NIF_ICON NIF_MESSAGE) NIF_TIP)
                   (WM_USER + 20) (_hicon t) (_hover_text t) in
      on_self (modify (set_notify_id (Some nid))) ;;;
      on_os (emit (Shell_NotifyIcon message (Some h) (Some nid)))
  end.

(** [update(icon=None, hover_text=None)] *)
Definition update (icon : option string) (hover_text : value) : M Machine unit :=
  when (match icon with Some p => negb (String.eqb p "") | None => false end)
    (on_self (modify (set_icon icon)) ;;; _load_icon) ;;;
  when (truthy hover_text) (on_self (modify (set_hover_text hover_text))) ;;;
  _refresh_icon.

Definition _create_window : M Machine unit :=
  h <- on_os new_handle ;;
  on_os (emit (CreateWindowEx h)) ;;;
  on_self (modify (set_hwnd (Some h))) ;;;
  _refresh_icon.

(** [_destroy(hwnd, msg, wparam, lparam)]; the arguments are not used. *)
Definition _destroy : M Machine unit :=
  on_quit <- gets (fun s => _on_quit (self s)) ;;
  when (truthy on_quit) (call_with_self on_quit) ;;;
  hwnd <- gets (fun s => _hwnd (self s)) ;;
  on_os (emit (Shell_NotifyIcon NIM_DELETE hwnd None)) ;;;
  on_os (emit (PostQuitMessage 0)) ;;;
  on_self (modify (set_hwnd None)) ;;;
  on_self (modify (set_notify_id None)).

Definition hwnd_truthy (t : SysTrayIcon) : bool :=
  match _hwnd t with Some h => negb (Z.eqb h 0) | None => false end.

(** [start] and [shutdown], with the message loop thread run in line: the
    thread creates the window, and the [WM_CLOSE] that [shutdown] posts is
    answered by [_destroy] before [join] returns. *)
Definition start : M Machine unit :=
  t <- gets self ;;
  if hwnd_truthy t then ret tt else _create_window.

Definition shutdown : M Machine unit :=
  t <- gets self ;;
  if negb (hwnd_truthy t) then ret tt else _destroy.

(** *** [_notify] *)

(** Building and showing the popup is left to the shell. *)
Variable _show_menu : M Machine unit.

Definition _notify (hwnd msg wparam lparam : Z) : M Machine bool :=
  (if Z.eqb lparam WM_LBUTTONDBLCLK then
     idx <- gets (fun s => _default_menu_index (self s)) ;;
     _execute_menu_option (idx + FIRST_ID)
   else if Z.eqb lparam WM_RBUTTONUP then _show_menu
   else if Z.eqb lparam WM_LBUTTONUP then ret tt
   else ret tt) ;;;
  ret true.

End Win32.

(** ** The notions of the specification *)

(** The entries the caller supplied, before the synthetic one is added. *)
Definition supplied (menu_options : argument) (s : Machine) : list value :=
  match menu_options with
  | ListObject l => default [] (heap s !! l)
  | ByValue v =>
      match v with
      | VTuple items | VList items => items
      | _ => []
      end
  end.


(** The compiler writes only the id counter and the dispatch map. *)
Definition ids_only (s s' : SysTrayIcon) : Prop :=
  s' = set_next_action_id (_next_action_id s')
         (set_menu_actions_by_id (_menu_actions_by_id s') s).

(** An entry in none of the three input forms. *)
Definition unrecognized (e : value) : Prop :=
  match e with
  | VTuple _ | VDict _ | VObj _ => False
  | _ => True
  end.




(** The [MenuOption] that [quit_option] builds. *)
Definition quit_node : MenuOption :=
  mkMenuOption KMenuOption (VStr "Quit") VNone (VStr QUIT) VNone VNone VNone VNone
    VNone VNone VNone VNone.

(** The controller as [_prepare_menu_options] leaves it before compiling. *)
Definition reset_ids (t : SysTrayIcon) : SysTrayIcon :=
  set_menu_actions_by_id ∅ (set_next_action_id FIRST_ID t).

(** A machine before any controller is built: an empty heap, and a shell
    that has handed out no handle yet, with no file on disk. *)
Definition blank : SysTrayIcon :=
  mkSysTrayIcon None false VNone VNone 0 ∅ [] 0 None None 0 None.
Definition quiet_shell : Native := mkNative [] [] [] 1 65539 ∅ [].
Definition boot : Machine := mkMachine blank ∅ quiet_shell.

(** The menus of the scenarios. *)
Definition leaf (label : string) (f : fn) : value :=
  VTuple [VStr label; VNone; VFun f].

Definition menu_A : list value := [leaf "Hi" "hi_cb"].

(** A submenu given as the action of its entry. *)
Definition menu_B : list value :=
  [VTuple [VStr "Parent"; VNone; VList [leaf "A" "cb_a"; leaf "B" "cb_b"]]].

(** The same submenu given as [MenuOption('Parent', submenu=[...])]. *)
Definition parent_option : MenuOption :=
  mkMenuOption KMenuOption (VStr "Parent") VNone VNone
    (VList [leaf "A" "cb_a"; leaf "B" "cb_b"]) VNone VNone VNone VNone VNone VNone
    VNone.
Definition menu_B' : list value := [VObj parent_option].

Definition menu_D : list value := [leaf "One" "one_cb"; leaf "Two" "two_cb"].

(** The labels and ids of a compiled tree along the pre-order walk. *)
Definition labelled_ids (tree : list value) : list (value * value) :=
  map (fun o => (text o, action_id o)) (walk_tree tree).

(** A checkbox without a hook, [CheckBoxMenuOption('Mute')], and one whose
    hook is the function [is_muted], shown at position 0 of the menu 7 with a
    stale flag. *)
Definition plain_box : MenuOption :=
  mkMenuOption KCheckBoxMenuOption (VStr "Mute") VNone VNone VNone VNone VNone VNone
    VNone VNone VNone (VBool false).
Definition hooked_box : MenuOption :=
  mkMenuOption KCheckBoxMenuOption (VStr "Mute") VNone VNone VNone VNone VNone VNone
    (VInt 7) (VInt 0) (VFun "is_muted") (VBool false).

(** A shell in which [is_muted()] returns [True] and the item is shown
    unchecked. *)
Definition muted_shell : Native :=
  mkNative [] [] [] 1 65539 (<[(7, 0) := 0]> ∅) [("is_muted", VBool true)].

(** A caller that holds a list at address 0: empty, or with one entry. *)
Definition caller_with (items : list value) : Machine :=
  mkMachine blank (<[0%nat := items]> ∅) quiet_shell.

(** A machine whose disk holds the icon file [app.ico]. *)
Definition icon_shell : Native :=
  mkNative [] ["app.ico"] ["app.ico"] 1 65539 ∅ [].
Definition icon_machine : Machine := mkMachine blank ∅ icon_shell.

(** The icon the controller holds is its own to release. *)
Definition owns_icon (t : SysTrayIcon) : bool :=
  negb (_icon_shared t) && negb (Z.eqb (_hicon t) 0).


(** The machine after [e] has been recorded. *)
Definition recorded (e : event) (s : Machine) : Machine :=
  mkMachine (self s) (heap s) (snd (emit e (os s))).

(** ** The shape of what the compiler returns *)

(** The ids of the leaves of a compiled tree along the pre-order walk. *)
Definition leaf_ids (tree : list value) : list Z :=
  omap id_of (List.filter is_leaf (walk_tree tree)).

(** The controller after a leaf has taken the counter's value. *)
Definition after_leaf (o : MenuOption) (s : SysTrayIcon) : SysTrayIcon :=
  set_next_action_id (_next_action_id s + 1)
    (set_menu_actions_by_id
       (<[_next_action_id s := callback o]> (_menu_actions_by_id s)) s).

(** The controller after the children of a submenu have been compiled. *)
Definition after_submenu (s2 : SysTrayIcon) : SysTrayIcon :=
  set_next_action_id (_next_action_id s2 + 1) s2.

(** The node a leaf becomes, and the node a submenu becomes. *)
Definition leaf_node (s : SysTrayIcon) (o : MenuOption) : value :=
  VObj (set_action_id (VInt (_next_action_id s)) o).
Definition submenu_node (s : SysTrayIcon) (o : MenuOption) (children : list value)
    : value :=
  VObj (set_callback VNone
          (set_submenu (VList children) (set_action_id (VInt (_next_action_id s)) o))).

(** [numbered s entries tree s']: started on the controller [s], the loop of
    the compiler turns [entries] into [tree] and leaves the controller [s'].
    [raw] is what the compiler recurses into for an entry that is not a
    leaf. *)
Definition raw_children (o : MenuOption) : value :=
  py_or (submenu o) (VBool (_non_string_iterable (callback o))).

Inductive numbered : SysTrayIcon -> list value -> list value -> SysTrayIcon -> Prop :=
| numbered_nil s : numbered s [] [] s
| numbered_leaf s e o entries tree s' :
    to_menu_option e = inr o ->
    is_leaf o = true ->
    numbered (after_leaf o s) entries tree s' ->
    numbered s (e :: entries) (leaf_node s o :: tree) s'
| numbered_submenu s e o items children s2 entries tree s' :
    to_menu_option e = inr o ->
    is_leaf o = false ->
    truthy (raw_children o) = true ->
    iterate (raw_children o) = inr items ->
    numbered s items children s2 ->
    numbered (after_submenu s2) entries tree s' ->
    numbered s (e :: entries) (submenu_node s o children :: tree) s'.

(** Every key of the dispatch map is below the counter. *)
Definition keys_below (s : SysTrayIcon) : Prop :=
  forall k x, _menu_actions_by_id s !! k = Some x -> k < _next_action_id s.

(** A node of a compiled tree as the dispatch map [actions] sees it: it
    holds an id in [lo, hi) that is a key of the map, bound to the node's own
    callback when the node is a leaf. *)
Definition node_ok (lo hi : Z) (actions : gmap Z value) (o : MenuOption) : Prop :=
  exists i, action_id o = VInt i /\ lo <= i < hi /\
            is_Some (actions !! i) /\
            (is_leaf o = true -> actions !! i = Some (callback o)).


(** What the compiler keeps of an entry [o] in the node [n] it becomes. *)
Definition keeps_entry (e : value) (v : value) : Prop :=
  exists o n, to_menu_option e = inr o /\ v = VObj n /\
    klass n = klass o /\ text n = text o /\ icon_path n = icon_path o /\
    ftype n = ftype o /\ fstate_slot n = fstate_slot o /\
    menu_handle n = menu_handle o /\ menu_position n = menu_position o /\
    check_hook n = check_hook o /\ checked n = checked o /\
    is_leaf n = is_leaf o /\
    (is_leaf o = true -> callback n = callback o /\ submenu n = submenu o) /\
    (is_leaf o = false -> callback n = VNone).

(** What the dispatcher records for the action [x]. *)
Definition dispatched (x : value) (s : Machine) : event :=
  match x with
  | VFun f => Called f (self s)
  | _ => DestroyWindow (_hwnd (self s))
  end.

(** The machine after [SysTrayIcon(None, 'tip', menu_B')] on [boot]. *)
Definition tray_B' : Machine :=
  snd (SysTrayIcon_init None (VStr "tip") (ByValue (VList menu_B')) VNone None boot).

(** ** Menus without submenus *)

(** An entry that becomes the leaf [o]. *)
Definition leaf_entry (e : value) (o : MenuOption) : Prop :=
  to_menu_option e = inr o /\ is_leaf o = true.

(** The loop of the compiler on leaves only: every leaf takes the counter's
    value, binds it to its callback, and advances the counter by one. *)
Fixpoint number_leaves (s : SysTrayIcon) (leaves : list MenuOption)
    : list value * SysTrayIcon :=
  match leaves with
  | [] => ([], s)
  | o :: rest =>
      let (tree, s') := number_leaves (after_leaf o s) rest in
      (leaf_node s o :: tree, s')
  end.

(** The machine after [SysTrayIcon(None, 'tip')], a controller without menu
    options, on [boot]. *)
Definition tray_bare : Machine :=
  snd (SysTrayIcon_init None (VStr "tip") (ByValue VNone) VNone None boot).

(** The heap the constructor leaves when given [entries] by value. *)
Definition heap_by_value (entries : list value) (s : Machine)
    : gmap loc (list value) :=
  <[fresh (dom (heap s)) := (entries ++ [VObj quit_node])%list]>
    (<[fresh (dom (heap s)) := entries]> (heap s)).

(** The [MenuOption] that the tuple [leaf label f] becomes. *)
Definition leaf_option (label : string) (f : fn) : MenuOption :=
  mkMenuOption KMenuOption (VStr label) VNone (VFun f) VNone VNone VNone VNone VNone
    VNone VNone VNone.


(** The entry of [menu_B], and the [MenuOption] it becomes. *)
Definition parent_entry : value :=
  VTuple [VStr "Parent"; VNone; VList [leaf "A" "cb_a"; leaf "B" "cb_b"]].
Definition parent_by_action : MenuOption :=
  mkMenuOption KMenuOption (VStr "Parent") VNone
    (VList [leaf "A" "cb_a"; leaf "B" "cb_b"]) VNone VNone VNone VNone VNone VNone
    VNone VNone.


(** [_load_icon] step by step, as changes of the machine: the owned icon
    released; an image loaded from [path], with the handle the shell gives,
    0 when it cannot read the file; the stock icon taken. *)
Definition released (s : Machine) : Machine :=
  if owns_icon (self s)
  then mkMachine (set_hicon 0 (self s)) (heap s)
         (snd (emit (DestroyIcon (_hicon (self s))) (os s)))
  else s.

Definition image_handle (path : string) (n : Native) : Z :=
  if mem path (icons n) then next_handle n else 0.

Definition after_LoadImage (path : string) (n : Native) : Native :=
  mkNative (log n ++ [LoadImage path (image_handle path n)]) (files n) (icons n)
    (if mem path (icons n) then next_handle n + 1 else next_handle n)
    (shared_icon n) (menu_state n) (returns n).

Definition with_image (path : string) (s : Machine) : Machine :=
  mkMachine (set_icon_shared false (set_hicon (image_handle path (os s)) (self s)))
    (heap s) (after_LoadImage path (os s)).

Definition with_stock (s : Machine) : Machine :=
  mkMachine
    (set_icon None (set_icon_shared true (set_hicon (shared_icon (os s)) (self s))))
    (heap s) (snd (emit (LoadIcon (shared_icon (os s))) (os s))).

Definition loaded (s : Machine) : Machine :=
  let s1 := released s in
  match _icon (self s1) with
  | Some path =>
      if mem path (files (os s1)) then
        if Z.eqb (image_handle path (os s1)) 0
        then with_stock (with_image path s1)
        else with_image path s1
      else with_stock s1
  | None => with_stock s1
  end.

(** What [_load_icon] tells the shell: the release of the owned icon, then
    the loading. *)
Definition release_events (t : SysTrayIcon) : list event :=
  if owns_icon t then [DestroyIcon (_hicon t)] else [].

Definition load_events (s : Machine) : list event :=
  match _icon (self s) with
  | Some path =>
      if mem path (files (os s)) then
        LoadImage path (image_handle path (os s))
        :: (if Z.eqb (image_handle path (os s)) 0
            then [LoadIcon (shared_icon (os s))] else [])
      else [LoadIcon (shared_icon (os s))]
  | None => [LoadIcon (shared_icon (os s))]
  end.

(** The handle the controller holds after [_load_icon]. *)
Definition loaded_handle (s : Machine) : Z :=
  match _icon (self s) with
  | Some path =>
      if mem path (files (os s)) && negb (Z.eqb (image_handle path (os s)) 0)
      then image_handle path (os s) else shared_icon (os s)
  | None => shared_icon (os s)
  end.

(** [update(icon, hover_text)] before its last statement. *)
Definition assigned_by_update (icon : option string) (hover_text : value)
    (s : Machine) : Machine :=
  let s1 := match icon with
            | Some p =>
                if negb (String.eqb p "")
                then loaded (mkMachine (set_icon icon (self s)) (heap s) (os s))
                else s
            | None => s
            end in
  if truthy hover_text
  then mkMachine (set_hover_text hover_text (self s1)) (heap s1) (os s1)
  else s1.


Section Win32_steps.

Variables WM_USER NIM_ADD NIM_MODIFY NIM_DELETE NIF_ICON NIF_MESSAGE NIF_TIP : Z.

(** The entry [_refresh_icon] hands to the shell for the window [h]. *)
Definition notify_data (h : Z) (t : SysTrayIcon) : NotifyData :=
  mkNotifyData h (Z.lor (Z.lor NIF_ICON NIF_MESSAGE) NIF_TIP) (WM_USER + 20)
    (_hicon t) (_hover_text t).

(** The message it sends: an entry is added once and modified afterwards. *)
Definition notify_message (t : SysTrayIcon) : Z :=
  match _notify_id t with Some _ => NIM_MODIFY | None => NIM_ADD end.

(** The machine after the shell has been told about the icon of window [h]. *)
Definition rendered (h : Z) (s : Machine) : Machine :=
  mkMachine (set_notify_id (Some (notify_data h (self s))) (self s)) (heap s)
    (snd (emit (Shell_NotifyIcon (notify_message (self s)) (Some h)
                  (Some (notify_data h (self s)))) (os s))).

(** The machine after [_refresh_icon]. *)
Definition refreshed (s : Machine) : Machine :=
  match _hwnd (self s) with
  | None => s
  | Some h => rendered h (if Z.eqb (_hicon (self s)) 0 then loaded s else s)
  end.


(** The machine after the last four statements of [_destroy]. *)
Definition destroyed (s : Machine) : Machine :=
  mkMachine (set_notify_id None (set_hwnd None (self s))) (heap s)
    (snd (emit (PostQuitMessage 0)
            (snd (emit (Shell_NotifyIcon NIM_DELETE (_hwnd (self s)) None) (os s))))).

End Win32_steps.


(** A started controller whose [on_quit] is the number 3. *)
Definition tray_bad_quit : Machine :=
  snd (start 1024 0 1 2 1 4
         (snd (SysTrayIcon_init None (VStr "tip") (ByValue VNone) (VInt 3) None boot))).

(** ** The check mark of a checkbox *)

(** The flag [checked] as [_get_checked] leaves it: what the hook answers
    now, or the stored flag when the hook is not a function. *)
Definition current_flag (o : MenuOption) (n : Native) : value :=
  match check_hook o with
  | VFun f => VBool (truthy (default VNone (assoc f (returns n))))
  | _ => checked o
  end.

(** The check bits [GetMenuState] shows for the item of [o]. *)
Definition shown_checked (MFS_CHECKED : Z) (m p : Z) (n : Native) : Z :=
  Z.land (default (-1) (menu_state n !! (m, p))) MFS_CHECKED.

(** ** The popup menu *)











(** The nodes of a list or tuple put back after the loop has changed them;
    over any other iterable the loop changes nothing it returns from. *)
Definition rebuild (container : value) (nodes : list value) : value :=
  match container with
  | VList _ => VList nodes
  | VTuple _ => VTuple nodes
  | _ => container
  end.

Section Menus.

Variables MFS_CHECKED MFS_UNCHECKED MF_BYPOSITION : Z.

(** [_prep_menu_icon] is a static method: it has no part in the controller,
    and its body is calls to the GDI only.  It is a parameter here. *)
Variable _prep_menu_icon : value -> M Native Z.





End Menus.





(** ** Refreshing the menu *)

Section Refreshing.

Variables MFS_CHECKED MFS_UNCHECKED MF_BYPOSITION : Z.

(** One turn of the loop of [_refresh_menu_options]; [recur] is the method
    itself, called on [menu_option.submenu].  The node is returned as the
    turn leaves it, its children with it. *)
Definition refresh_item (recur : value -> M Native value) (menu_option : value)
    : M Native value :=
  match menu_option with
  | VObj o =>
      o <- refresh MFS_CHECKED MFS_UNCHECKED MF_BYPOSITION o ;;
      if truthy (submenu o) then
        sub <- recur (submenu o) ;;
        ret (VObj (set_submenu sub o))
      else ret (VObj o)
  | _ => raise (AttributeError
                  ("'" ++ type_name menu_option ++ "' object has no attribute 'refresh'"))
  end.

Fixpoint refresh_loop (body : value -> M Native value) (items : list value)
    : M Native (list value) :=
  match items with
  | [] => ret []
  | menu_option :: rest =>
      o <- body menu_option ;;
      rest' <- refresh_loop body rest ;;
      ret (o :: rest')
  end.

(** [_refresh_menu_options(menu_options)] *)
Fixpoint refresh_fuel (fuel : nat) (menu_options : value) : M Native value :=
  match fuel with
  | O => unfinished
  | S fuel' =>
      items <- lift (iterate menu_options) ;;
      nodes <- refresh_loop (refresh_item (refresh_fuel fuel')) items ;;
      ret (rebuild menu_options nodes)
  end.

(** [_refresh_menu_options()]: the nodes of [self._menu_options] are
    refreshed where they are. *)
Definition _refresh_menu_options : M Machine unit :=
  menu_options <- gets (fun s => _menu_options (self s)) ;;
  tree <- on_os (refresh_fuel (S (depth (VList menu_options))) (VList menu_options)) ;;
  match tree with
  | VList nodes => on_self (modify (set_menu_options nodes))
  | _ => ret tt
  end.

End Refreshing.

(** A node of a compiled menu that has either an action or children, not
    both, and that is not part of a built menu or is so at an integer
    position. *)
Definition tidy (o : MenuOption) : Prop :=
  (is_leaf o = true -> truthy (submenu o) = false) /\
  (menu_handle o = VNone \/
   exists m p, menu_handle o = VInt m /\ menu_position o = VInt p).

(** The flag of a node after [refresh]. *)
Definition flag_after (n : Native) (o : MenuOption) : value :=
  match klass o with
  | KMenuOption => checked o
  | KCheckBoxMenuOption => current_flag o n
  end.

(** The node [o'] is [o] but for the flag, which is the one [refresh]
    computes. *)
Definition refreshed_node (n : Native) (o o' : MenuOption) : Prop :=
  klass o' = klass o /\ text o' = text o /\ icon_path o' = icon_path o /\
  callback o' = callback o /\ ftype o' = ftype o /\ fstate_slot o' = fstate_slot o /\
  action_id o' = action_id o /\ menu_handle o' = menu_handle o /\
  menu_position o' = menu_position o /\ check_hook o' = check_hook o /\
  checked o' = flag_after n o.

Definition is_CheckMenuItem (e : event) : Prop :=
  match e with CheckMenuItem _ _ _ => True | _ => False end.

(** An entry with an action and a child of its own, and the machine after
    [SysTrayIcon(None, 'tip', [entry_both])] on [boot]. *)
Definition entry_both : value :=
  VTuple [VStr "Both"; VNone; VFun "both_cb"; VList [leaf "A" "cb_a"]].

Definition tray_both : Machine :=
  snd (SysTrayIcon_init None (VStr "tip") (ByValue (VList [entry_both])) VNone None boot).

(** ** The monad *)

Lemma bind_Return {S A B} (m : M S A) (k : A -> M S B) s b s' :
  bind m k s = (Return b, s') ->
  exists a s1, m s = (Return a, s1) /\ k a s1 = (Return b, s').
Proof.
  unfold bind. destruct (m s) as [[a | e |] s1]; intros H; try discriminate.
  exists a, s1. split; [reflexivity | exact H].
Qed.

Lemma bind_as {S A B} (m : M S A) (k : A -> M S B) s a s1 :
  m s = (Return a, s1) -> bind m k s = k a s1.
Proof. intros H. unfold bind. rewrite H. reflexivity. Qed.


Lemma bind_assoc {S A B C} (m : M S A) (k : A -> M S B) (k' : B -> M S C) s :
  bind (bind m k) k' s = bind m (fun a => bind (k a) k') s.
Proof. unfold bind. destruct (m s) as [[a | e |] s1]; reflexivity. Qed.

Lemma bind_ext {S A B} (m : M S A) (k k' : A -> M S B) s :
  (forall a s1, k a s1 = k' a s1) -> bind m k s = bind m k' s.
Proof.
  intros H. unfold bind. destruct (m s) as [[a | e |] s1]; auto.
Qed.

Lemma lift_Return {S A} (r : exn + A) (s : S) a s' :
  lift r s = (Return a, s') -> r = inr a /\ s' = s.
Proof.
  destruct r; unfold lift, raise, ret; intros H; inversion H; auto.
Qed.


(** ** The compiler terminates *)

Lemma depth_in_list (e : value) (l : list value) :
  In e l -> (depth e <= list_max (map depth l))%nat.
Proof.
  induction l as [| x l IH]; simpl; [tauto |].
  intros [-> | H]; [lia |]. specialize (IH H). lia.
Qed.


Lemma depth_nth_error (l : list value) i v :
  nth_error l i = Some v -> (depth v <= list_max (map depth l))%nat.
Proof. intros H. apply depth_in_list. eapply nth_error_In; eauto. Qed.








(** ** How the ids are handed out *)








(** ** What the compiler leaves alone *)



Lemma ids_only_menu_options s s' : ids_only s s' -> _menu_options s' = _menu_options s.
Proof. intros ->. reflexivity. Qed.





(** ** The last entry of a list *)

Lemma recompile_loop_app body a b :
  forall acc s,
    recompile_loop body (a ++ b) acc s =
    bind (recompile_loop body a acc) (fun r => recompile_loop body b r) s.
Proof.
  induction a as [| e a IH]; intros acc s; simpl; [reflexivity |].
  rewrite bind_assoc. apply bind_ext. intros o s1.
  transitivity (recompile_loop body (a ++ b) (acc ++ [o])
                  (set_next_action_id (_next_action_id s1 + 1) s1));
    [reflexivity |].
  rewrite IH. reflexivity.
Qed.

Lemma quit_option_eq : quit_option = inr quit_node.
Proof. reflexivity. Qed.

(** The synthetic entry is a leaf: it takes the counter's value and binds
    it to the quit token. *)
Lemma recompile_option_quit recur s :
  recompile_option recur (VObj quit_node) s =
  (Return (VObj (set_action_id (VInt (_next_action_id s)) quit_node)),
   set_menu_actions_by_id
     (<[_next_action_id s := VStr QUIT]> (_menu_actions_by_id s)) s).
Proof. reflexivity. Qed.

(** ** [_prepare_menu_options], step by step *)

Lemma alloc_eq items s :
  alloc items s =
  (Return (fresh (dom (heap s))), set_heap (<[fresh (dom (heap s)) := items]> (heap s)) s).
Proof. reflexivity. Qed.

Lemma fresh_unused (h : gmap loc (list value)) : h !! fresh (dom h) = None.
Proof. apply not_elem_of_dom. apply is_fresh. Qed.

(** The list that receives the synthetic entry holds the caller's entries;
    it is the caller's own list when that list is not empty, and a list
    nobody else knows otherwise. *)
Lemma target_list_Return menu_options s l s1 :
  target_list menu_options s = (Return l, s1) ->
  self s1 = self s /\ os s1 = os s /\
  heap s1 !! l = Some (supplied menu_options s) /\
  ((s1 = s /\ menu_options = ListObject l /\ supplied menu_options s <> []) \/
   (heap s !! l = None /\ heap s1 = <[l := supplied menu_options s]> (heap s))).
Proof.
  destruct menu_options as [v | l0]; simpl.
  - assert (Ha : forall items, supplied (ByValue v) s = items ->
                 alloc items s = (Return l, s1) ->
                 self s1 = self s /\ os s1 = os s /\
                 heap s1 !! l = Some (supplied (ByValue v) s) /\
                 ((s1 = s /\ ByValue v = ListObject l /\ supplied (ByValue v) s <> []) \/
                  (heap s !! l = None /\
                   heap s1 = <[l := supplied (ByValue v) s]> (heap s)))).
    { intros items Hs. rewrite alloc_eq. intros [= <- <-]. rewrite Hs. simpl.
      split; [reflexivity |]. split; [reflexivity |].
      split; [apply lookup_insert_eq |]. right.
      split; [apply fresh_unused | reflexivity]. }
    unfold py_or.
    destruct v as [| b | z | str | f | items | items | kv | o | c]; simpl;
      try discriminate; try (apply Ha; reflexivity).
    + destruct b; simpl; [discriminate | apply Ha; reflexivity].
    + destruct (negb (Z.eqb z 0)); simpl; [discriminate | apply Ha; reflexivity].
    + destruct (negb (String.eqb str "")); simpl; [discriminate | apply Ha; reflexivity].
    + destruct items; simpl; apply Ha; reflexivity.
    + destruct items; simpl; apply Ha; reflexivity.
    + destruct kv; simpl; [apply Ha; reflexivity | discriminate].
  - unfold bind, gets. simpl.
    destruct (heap s !! l0) as [[| x r] |] eqn:E; simpl.
    + rewrite alloc_eq. intros [= <- <-]. simpl.
      split; [reflexivity |]. split; [reflexivity |].
      split; [apply lookup_insert_eq |]. right.
      split; [apply fresh_unused | reflexivity].
    + intros [= <- <-]. split; [reflexivity |]. split; [reflexivity |].
      split; [exact E |]. left. split; [reflexivity |]. split; [reflexivity | discriminate].
    + discriminate.
Qed.

(** After the list is chosen, the rest of the method in one equation. *)
Lemma prepare_eq menu_options s l s1 :
  target_list menu_options s = (Return l, s1) ->
  _prepare_menu_options menu_options s =
  let entries := (supplied menu_options s ++ [VObj quit_node])%list in
  let h' := <[l := entries]> (heap s1) in
  match _recompile_menu_options_with_ids (VList entries) (reset_ids (self s)) with
  | (Return tree, t) => (Return tt, mkMachine (set_menu_options tree t) h' (os s))
  | (Raise e, t) => (Raise e, mkMachine t h' (os s))
  | (Unfinished, t) => (Unfinished, mkMachine t h' (os s))
  end.
Proof.
  intros Ht. pose proof (target_list_Return _ _ _ _ Ht) as (Hself & Hos & Hl & _).
  unfold _prepare_menu_options. rewrite (bind_as _ _ _ _ _ Ht).
  rewrite quit_option_eq. unfold lift at 1. unfold bind at 1, ret at 1.
  unfold append. unfold bind at 1 2, gets at 1, modify at 1. simpl.
  rewrite Hl. simpl.
  unfold bind at 1, on_self at 1, modify at 1. simpl.
  unfold bind at 1, on_self at 1, modify at 1. simpl.
  unfold bind at 1, gets at 1. simpl.
  rewrite lookup_insert_eq. simpl.
  unfold bind at 1, on_self at 1. simpl. rewrite Hself, Hos.
  unfold reset_ids.
  destruct (_recompile_menu_options_with_ids _ _) as [[tree | e |] t]; reflexivity.
Qed.

(** ** The constructor *)

Lemma init_eq icon hover_text menu_options on_quit default_menu_index s :
  SysTrayIcon_init icon hover_text menu_options on_quit default_menu_index s =
  match _prepare_menu_options menu_options
          (mkMachine (first_attributes icon hover_text on_quit) (heap s) (os s)) with
  | (Return _, s1) =>
      (Return tt,
       mkMachine (last_attributes default_menu_index (self s1)) (heap s1)
         (snd (emit RegisterClass (os s1))))
  | (Raise e, s1) => (Raise e, s1)
  | (Unfinished, s1) => (Unfinished, s1)
  end.
Proof.
  unfold SysTrayIcon_init. unfold bind at 1, on_self at 1, modify at 1. simpl.
  unfold bind at 1.
  destruct (_prepare_menu_options _ _) as [[[] | e |] s1]; reflexivity.
Qed.



Lemma supplied_heap menu_options s s0 :
  heap s0 = heap s -> supplied menu_options s0 = supplied menu_options s.
Proof. intros H. destruct menu_options; simpl; [reflexivity | rewrite H; reflexivity]. Qed.

Lemma prepare_target menu_options s u s' :
  _prepare_menu_options menu_options s = (Return u, s') ->
  exists l s1, target_list menu_options s = (Return l, s1).
Proof.
  unfold _prepare_menu_options. intros H.
  apply bind_Return in H as (l & s1 & Ht & _). eauto.
Qed.

(** ** The synthetic Quit entry *)



(** ** The constructor on a list given by value *)

Lemma target_list_by_value items s :
  target_list (ByValue (VList items)) s = alloc items s.
Proof. destruct items; reflexivity. Qed.

Lemma init_by_value icon hover_text items on_quit default_menu_index s :
  SysTrayIcon_init icon hover_text (ByValue (VList items)) on_quit
    default_menu_index s =
  let h' := <[fresh (dom (heap s)) := (items ++ [VObj quit_node])%list]>
              (<[fresh (dom (heap s)) := items]> (heap s)) in
  match _recompile_menu_options_with_ids (VList (items ++ [VObj quit_node]))
          (reset_ids (first_attributes icon hover_text on_quit)) with
  | (Return tree, t) =>
      (Return tt,
       mkMachine (last_attributes default_menu_index (set_menu_options tree t)) h'
         (snd (emit RegisterClass (os s))))
  | (Raise e, t) => (Raise e, mkMachine t h' (os s))
  | (Unfinished, t) => (Unfinished, mkMachine t h' (os s))
  end.
Proof.
  rewrite init_eq.
  rewrite (prepare_eq _ _ (fresh (dom (heap s)))
             (set_heap (<[fresh (dom (heap s)) := items]> (heap s))
                (mkMachine (first_attributes icon hover_text on_quit) (heap s) (os s)))).
  2: { rewrite target_list_by_value. reflexivity. }
  simpl.
  destruct (_recompile_menu_options_with_ids _ _) as [[tree | e |] t]; reflexivity.
Qed.

(** ** Scenario A: one leaf *)

Lemma compile_scenario_A icon hover_text on_quit :
  _recompile_menu_options_with_ids
    (VList (menu_A ++ [VObj quit_node]))
    (reset_ids (first_attributes icon hover_text on_quit)) =
  (Return
     [VObj (set_action_id (VInt 1023)
              (mkMenuOption KMenuOption (VStr "Hi") VNone (VFun "hi_cb") VNone VNone
                 VNone VNone VNone VNone VNone VNone));
      VObj (set_action_id (VInt 1024) quit_node)],
   set_next_action_id 1025
     (set_menu_actions_by_id (<[1024 := VStr QUIT]> (<[1023 := VFun "hi_cb"]> ∅))
        (first_attributes icon hover_text on_quit))).
Proof. reflexivity. Qed.

(** C5. The specification with the one leaf Hi compiles, whatever the other
    arguments of the constructor and the machine it runs on: Hi gets the
    base id 1023 and Quit the next one, and the dispatcher, given 1023,
    calls [hi_cb] once, with the controller, and does nothing else. *)
Theorem C5_scenario_A icon hover_text on_quit default_menu_index s :
  exists s',
    SysTrayIcon_init icon hover_text (ByValue (VList menu_A))
      on_quit default_menu_index s = (Return tt, s') /\
    labelled_ids (_menu_options (self s')) =
      [(VStr "Hi", VInt FIRST_ID); (VStr "Quit", VInt (FIRST_ID + 1))] /\
    _execute_menu_option FIRST_ID s' =
      (Return tt, recorded (Called "hi_cb" (self s')) s') /\
    log (os (recorded (Called "hi_cb" (self s')) s')) =
      (log (os s') ++ [Called "hi_cb" (self s')])%list.
Proof.
  rewrite init_by_value. rewrite compile_scenario_A. cbv zeta.
  eexists. split; [reflexivity |]. split; [reflexivity |]. split; reflexivity.
Qed.

(** ** Scenario B: a submenu *)

Lemma compile_scenario_B icon hover_text on_quit :
  _recompile_menu_options_with_ids (VList (menu_B ++ [VObj quit_node]))
    (reset_ids (first_attributes icon hover_text on_quit)) =
  (Raise (TypeError "'bool' object is not iterable"),
   reset_ids (first_attributes icon hover_text on_quit)).
Proof. reflexivity. Qed.

(** C2. The specification whose entry Parent has the list of A and B as its
    action does not compile: the compiler iterates over the truth value that
    [_non_string_iterable] returned instead of over the list, and the
    constructor raises a [TypeError]; no id is handed out and no menu is put
    into the controller. *)
Theorem C2_scenario_B_raises icon hover_text on_quit default_menu_index s :
  exists s',
    SysTrayIcon_init icon hover_text (ByValue (VList menu_B))
      on_quit default_menu_index s =
      (Raise (TypeError "'bool' object is not iterable"), s') /\
    _menu_options (self s') = [] /\
    _menu_actions_by_id (self s') = ∅ /\
    _next_action_id (self s') = FIRST_ID.
Proof.
  rewrite init_by_value. rewrite compile_scenario_B. cbv zeta.
  eexists. split; [reflexivity |]. repeat split.
Qed.

(** C1. With the submenu given through [submenu], the specification
    compiles, but the ids are not unique: Parent and its first child A both
    hold 1023, so the ids do not increase strictly along the walk, A does not
    get the id after Parent's, and the id of the submenu Parent is bound to
    the callback of A in the dispatch map. *)
Theorem C1_submenu_shares_id_with_first_child
    icon hover_text on_quit default_menu_index s :
  exists s',
    SysTrayIcon_init icon hover_text (ByValue (VList menu_B'))
      on_quit default_menu_index s = (Return tt, s') /\
    labelled_ids (_menu_options (self s')) =
      [(VStr "Parent", VInt 1023); (VStr "A", VInt 1023); (VStr "B", VInt 1024);
       (VStr "Quit", VInt 1026)] /\
    tree_ids (_menu_options (self s')) = [1023; 1023; 1024; 1026] /\
    ~ NoDup (tree_ids (_menu_options (self s'))) /\
    _menu_actions_by_id (self s') !! 1023 = Some (VFun "cb_a").
Proof.
  rewrite init_by_value.
  destruct (_recompile_menu_options_with_ids _ _) as [r t] eqn:E.
  vm_compute in E. inversion E; subst; clear E. cbv zeta.
  eexists. split; [reflexivity |]. split; [reflexivity |].
  split; [reflexivity |]. split; [| reflexivity].
  change (tree_ids _) with [1023; 1023; 1024; 1026].
  intros H. apply NoDup_cons_1_1 in H. apply H. left.
Qed.

(** ** Scenario D: the double click *)

Lemma compile_scenario_D icon hover_text on_quit :
  _recompile_menu_options_with_ids (VList (menu_D ++ [VObj quit_node]))
    (reset_ids (first_attributes icon hover_text on_quit)) =
  (Return
     [VObj (set_action_id (VInt 1023)
              (mkMenuOption KMenuOption (VStr "One") VNone (VFun "one_cb") VNone VNone
                 VNone VNone VNone VNone VNone VNone));
      VObj (set_action_id (VInt 1024)
              (mkMenuOption KMenuOption (VStr "Two") VNone (VFun "two_cb") VNone VNone
                 VNone VNone VNone VNone VNone VNone));
      VObj (set_action_id (VInt 1025) quit_node)],
   set_next_action_id 1026
     (set_menu_actions_by_id
        (<[1025 := VStr QUIT]> (<[1024 := VFun "two_cb"]> (<[1023 := VFun "one_cb"]> ∅)))
        (first_attributes icon hover_text on_quit))).
Proof. reflexivity. Qed.

Section Win32_facts.

Variables MFS_CHECKED MFS_UNCHECKED MF_BYPOSITION : Z.
Variables WM_LBUTTONDBLCLK WM_RBUTTONUP WM_LBUTTONUP : Z.
Variable _show_menu : M Machine unit.

(** C9. With the default index 1 and the two leaves One and Two, which get
    the ids 1023 and 1024, the notification of a left double click runs the
    dispatcher on 1023 + 1: the callback of Two is called once with the
    controller, and nothing else happens, whatever the window, message and
    [wparam] of the notification. *)
Theorem C9_scenario_D icon hover_text on_quit s hwnd msg wparam :
  exists s',
    SysTrayIcon_init icon hover_text (ByValue (VList menu_D)) on_quit (Some 1) s
      = (Return tt, s') /\
    labelled_ids (_menu_options (self s')) =
      [(VStr "One", VInt FIRST_ID); (VStr "Two", VInt (FIRST_ID + 1));
       (VStr "Quit", VInt (FIRST_ID + 2))] /\
    _default_menu_index (self s') = 1 /\
    _menu_actions_by_id (self s') !! (FIRST_ID + 1) = Some (VFun "two_cb") /\
    _notify WM_LBUTTONDBLCLK WM_RBUTTONUP WM_LBUTTONUP _show_menu
      hwnd msg wparam WM_LBUTTONDBLCLK s' =
      (Return true, recorded (Called "two_cb" (self s')) s').
Proof.
  rewrite init_by_value. rewrite compile_scenario_D. cbv zeta.
  eexists. split; [reflexivity |]. split; [reflexivity |].
  split; [reflexivity |]. split; [reflexivity |].
  unfold _notify. rewrite Z.eqb_refl. reflexivity.
Qed.

(** ** Checkboxes *)

Lemma get_checked_spec o n :
  _get_checked o n =
  (Return (match check_hook o with
           | VFun f => set_checked (VBool (truthy (default VNone (assoc f (returns n))))) o
           | _ => o
           end), n).
Proof.
  unfold _get_checked.
  destruct (check_hook o) as [| b | z | str | f | l | l | kv | o' | c]; simpl;
    try rewrite andb_false_r; reflexivity.
Qed.

(** After its first statement [refresh] leaves the node and the functions'
    answers alone. *)
Lemma refresh_Return o n o' n' :
  klass o = KCheckBoxMenuOption ->
  refresh MFS_CHECKED MFS_UNCHECKED MF_BYPOSITION o n = (Return o', n') ->
  _get_checked o n = (Return o', n) /\ returns n' = returns n.
Proof.
  intros Hk. unfold refresh. rewrite Hk. intros H.
  apply bind_Return in H as (o1 & n1 & Hg & H).
  rewrite get_checked_spec in Hg. inversion Hg; subst n1. clear Hg.
  rewrite get_checked_spec.
  assert (Hrest : o' = o1 /\ returns n' = returns n).
  { destruct (menu_handle o1) eqn:Eh;
      try (inversion H; subst; split; reflexivity);
      (apply bind_Return in H as (menu & n2 & Hm & H);
       apply bind_Return in H as (pos & n3 & Hp & H);
       assert (n2 = n) by
         (revert Hm; unfold as_int, ret, raise; intros Hm;
          first [discriminate | inversion Hm; reflexivity]);
       subst n2;
       assert (n3 = n) by
         (revert Hp; unfold as_int, ret, raise;
          destruct (menu_position o1); intros Hp;
          first [discriminate | inversion Hp; reflexivity]);
       subst n3;
       unfold bind at 1, GetMenuState at 1, gets at 1 in H;
       destruct (ne_int _ _);
       [ unfold bind, do_CheckMenuItem, emit, modify, bind, ret in H; simpl in H
       | unfold ret in H ];
       inversion H; subst; split; reflexivity). }
  destruct Hrest as [-> Hr]. split; [congruence | exact Hr].
Qed.

(** C4. When [refresh] returns on a checkbox whose hook is a function, the
    flag [checked] is the truth value of what the hook returns now, whatever
    the flag was before: the very value when the hook returns a boolean.  When
    the hook is not callable, as when none was given, the flag is what it was.
    The answers of the hooks are the same after the refresh. *)
Theorem C4_refresh_takes_the_hook_value o n o' n' :
  klass o = KCheckBoxMenuOption ->
  refresh MFS_CHECKED MFS_UNCHECKED MF_BYPOSITION o n = (Return o', n') ->
  returns n' = returns n /\
  (forall f, check_hook o = VFun f ->
     checked o' = VBool (truthy (default VNone (assoc f (returns n))))) /\
  (forall f b, check_hook o = VFun f -> assoc f (returns n) = Some (VBool b) ->
     checked o' = VBool b) /\
  (callable (check_hook o) = false -> checked o' = checked o).
Proof.
  intros Hk H. apply refresh_Return in H as [Hg Hr]; [| exact Hk].
  rewrite get_checked_spec in Hg. inversion Hg as [Ho]. clear Hg.
  split; [exact Hr |]. split; [| split].
  - intros f Hf. rewrite Hf. reflexivity.
  - intros f b Hf Hb. rewrite Hf, Hb. reflexivity.
  - intros Hc. destruct (check_hook o); try reflexivity. discriminate.
Qed.

(** C6, as the code has it. On a checkbox an assignment to [fstate] changes
    nothing at all.  The flag [checked] is an ordinary attribute: an
    assignment to it is accepted and stores the value.  With a hook that is
    a function the stored value does not reach the rendering, which shows
    what the hook returns; without one the stored value is what is
    rendered. *)
Theorem C6_fstate_is_read_only_checked_is_not o v n :
  klass o = KCheckBoxMenuOption ->
  setattr o a_fstate v = o /\
  checked (setattr o a_checked v) = v /\
  (forall f, check_hook o = VFun f ->
     fst (get_fstate MFS_CHECKED MFS_UNCHECKED (setattr o a_checked v) n) =
     fst (get_fstate MFS_CHECKED MFS_UNCHECKED o n)) /\
  (callable (check_hook o) = false ->
     get_fstate MFS_CHECKED MFS_UNCHECKED (setattr o a_checked v) n =
     (Return (VInt (if truthy v then MFS_CHECKED else MFS_UNCHECKED),
              setattr o a_checked v), n)).
Proof.
  intros Hk. split; [| split; [| split]].
  - unfold setattr. rewrite Hk. reflexivity.
  - reflexivity.
  - intros f Hf. unfold get_fstate. simpl. rewrite Hk.
    unfold bind. rewrite !get_checked_spec. simpl. rewrite Hf. reflexivity.
  - intros Hc. unfold get_fstate. simpl. rewrite Hk.
    unfold bind. rewrite get_checked_spec. simpl.
    destruct (check_hook o); try reflexivity. discriminate.
Qed.

End Win32_facts.

Lemma C4_witness :
  returns (snd (refresh 8 0 1024 hooked_box muted_shell)) = returns muted_shell /\
  (forall f, check_hook hooked_box = VFun f ->
     checked (set_checked (VBool true) hooked_box) =
     VBool (truthy (default VNone (assoc f (returns muted_shell))))) /\
  (forall f b, check_hook hooked_box = VFun f ->
     assoc f (returns muted_shell) = Some (VBool b) ->
     checked (set_checked (VBool true) hooked_box) = VBool b) /\
  (callable (check_hook hooked_box) = false ->
     checked (set_checked (VBool true) hooked_box) = checked hooked_box).
Proof.
  apply (C4_refresh_takes_the_hook_value 8 0 1024 hooked_box muted_shell
           (set_checked (VBool true) hooked_box)
           (snd (refresh 8 0 1024 hooked_box muted_shell))).
  - reflexivity.
  - vm_compute. reflexivity.
Defined.

Lemma C6_witness :
  setattr plain_box a_fstate (VInt 8) = plain_box /\
  checked (setattr plain_box a_checked (VInt 8)) = VInt 8 /\
  (forall f, check_hook plain_box = VFun f ->
     fst (get_fstate 8 0 (setattr plain_box a_checked (VInt 8)) quiet_shell) =
     fst (get_fstate 8 0 plain_box quiet_shell)) /\
  (callable (check_hook plain_box) = false ->
     get_fstate 8 0 (setattr plain_box a_checked (VInt 8)) quiet_shell =
     (Return (VInt (if truthy (VInt 8) then 8 else 0),
              setattr plain_box a_checked (VInt 8)), quiet_shell)).
Proof.
  apply (C6_fstate_is_read_only_checked_is_not 8 0 plain_box (VInt 8) quiet_shell).
  reflexivity.
Defined.

(** The sentence of the specification fails on a checkbox without a hook, as the
    constructor builds it: the assignment [box.checked = True] is not
    rejected, it changes the node, and with no hook to overrule it the item
    is rendered checked where it was rendered unchecked before. *)
Lemma C6_counterexample :
  CheckBoxMenuOption_init [VStr "Mute"] [] VNone (VBool false) quiet_shell =
    (Return plain_box, quiet_shell) /\
  check_hook plain_box = VNone /\
  setattr plain_box a_checked (VBool true) <> plain_box /\
  checked (setattr plain_box a_checked (VBool true)) = VBool true /\
  fst (get_fstate 8 0 plain_box quiet_shell) = Return (VInt 0, plain_box) /\
  fst (get_fstate 8 0 (setattr plain_box a_checked (VBool true)) quiet_shell) =
    Return (VInt 8, setattr plain_box a_checked (VBool true)).
Proof.
  split; [reflexivity |]. split; [reflexivity |]. split; [discriminate |].
  split; [reflexivity |]. split; reflexivity.
Qed.

(** ** Entries the compiler cannot use *)










(** ** The caller's list *)

Lemma target_list_Raise menu_options s r s1 :
  target_list menu_options s = (r, s1) ->
  (exists l, r = Return l) \/ ((exists e, r = Raise e) /\ s1 = s).
Proof.
  destruct menu_options as [v | l]; simpl.
  - destruct (py_or v (VTuple [])); simpl;
      try (rewrite alloc_eq; intros [= <- <-]; left; eauto);
      unfold raise; intros [= <- <-]; right; eauto.
  - unfold bind, gets. simpl.
    destruct (heap s !! l) as [[| x r'] |]; simpl.
    + rewrite alloc_eq. intros [= <- <-]. left. eauto.
    + unfold ret. intros [= <- <-]. left. eauto.
    + unfold raise. intros [= <- <-]. right. eauto.
Qed.

(** The heap the constructor leaves behind, whether it returns or raises:
    the chosen list has received the synthetic entry, nothing else moved. *)
Lemma init_heap icon hover_text menu_options on_quit default_menu_index s :
  match target_list menu_options
          (mkMachine (first_attributes icon hover_text on_quit) (heap s) (os s)) with
  | (Return l, s1) =>
      heap (snd (SysTrayIcon_init icon hover_text menu_options on_quit
                   default_menu_index s)) =
      <[l := (supplied menu_options s ++ [VObj quit_node])%list]> (heap s1)
  | _ =>
      heap (snd (SysTrayIcon_init icon hover_text menu_options on_quit
                   default_menu_index s)) = heap s
  end.
Proof.
  rewrite init_eq.
  set (s0 := mkMachine (first_attributes icon hover_text on_quit) (heap s) (os s)).
  destruct (target_list menu_options s0) as [r s1] eqn:Ht.
  destruct (target_list_Raise _ _ _ _ Ht) as [[l ->] | [[e ->] ->]].
  - rewrite (prepare_eq _ _ _ _ Ht). cbv zeta.
    rewrite (supplied_heap menu_options s s0) by reflexivity.
    destruct (_recompile_menu_options_with_ids _ _) as [[tree | e |] t]; reflexivity.
  - unfold _prepare_menu_options, bind. rewrite Ht. reflexivity.
Qed.

(** C10, as the code has it. Let the caller hold a list. Given to the
    constructor as it is, the list receives the entry labelled Quit at its end
    when it is not empty, and stays empty when it is empty: the entry then
    goes to a new list. Given any other value, a tuple or [None] say, the
    caller's list stays as it is. This holds whether the constructor returns
    or raises. *)
Theorem C10_quit_is_appended_to_a_nonempty_list
    icon hover_text on_quit default_menu_index s l items :
  heap s !! l = Some items ->
  (items <> [] ->
   heap (snd (SysTrayIcon_init icon hover_text (ListObject l) on_quit
                default_menu_index s)) !! l
     = Some (items ++ [VObj quit_node])%list /\
   text quit_node = VStr "Quit") /\
  (items = [] ->
   heap (snd (SysTrayIcon_init icon hover_text (ListObject l) on_quit
                default_menu_index s)) !! l = Some []) /\
  (forall v,
   heap (snd (SysTrayIcon_init icon hover_text (ByValue v) on_quit
                default_menu_index s)) !! l = Some items).
Proof.
  intros Hl.
  assert (Hother : forall menu_options l0 s1,
            target_list menu_options
              (mkMachine (first_attributes icon hover_text on_quit) (heap s) (os s))
              = (Return l0, s1) ->
            heap s !! l0 = None ->
            heap s1 = <[l0 := supplied menu_options s]> (heap s) ->
            (<[l0 := (supplied menu_options s ++ [VObj quit_node])%list]> (heap s1))
              !! l = Some items).
  { intros mo l0 s1 _ Hnone ->.
    assert (l0 <> l) by congruence.
    rewrite !lookup_insert_ne by assumption. exact Hl. }
  split; [| split].
  - intros Hne. split; [| reflexivity].
    pose proof (init_heap icon hover_text (ListObject l) on_quit default_menu_index s)
      as H.
    simpl in H. unfold bind, gets in H. simpl in H. rewrite Hl in H.
    destruct items as [| x r]; [congruence |]. simpl in H.
    rewrite H. apply lookup_insert_eq.
  - intros ->.
    pose proof (init_heap icon hover_text (ListObject l) on_quit default_menu_index s)
      as H.
    destruct (target_list _ _) as [[l0 | e |] s1] eqn:Ht; try (rewrite H; exact Hl).
    rewrite H.
    destruct (target_list_Return _ _ _ _ Ht) as (_ & _ & _ & [(_ & _ & Hx) | [Hn Hh]]).
    + simpl in Hx. rewrite Hl in Hx. simpl in Hx. congruence.
    + eapply Hother; [exact Ht | exact Hn |].
      rewrite Hh. f_equal.
  - intros v.
    pose proof (init_heap icon hover_text (ByValue v) on_quit default_menu_index s)
      as H.
    destruct (target_list _ _) as [[l0 | e |] s1] eqn:Ht; try (rewrite H; exact Hl).
    rewrite H.
    destruct (target_list_Return _ _ _ _ Ht) as (_ & _ & _ & [(_ & Hx & _) | [Hn Hh]]);
      [discriminate |].
    eapply Hother; [exact Ht | exact Hn |].
    rewrite Hh. f_equal.
Qed.

Lemma C10_witness :
  (menu_A <> [] ->
   heap (snd (SysTrayIcon_init None (VStr "tip") (ListObject 0%nat) VNone None
                (caller_with menu_A))) !! 0%nat
     = Some (menu_A ++ [VObj quit_node])%list /\
   text quit_node = VStr "Quit") /\
  (menu_A = [] ->
   heap (snd (SysTrayIcon_init None (VStr "tip") (ListObject 0%nat) VNone None
                (caller_with menu_A))) !! 0%nat = Some []) /\
  (forall v,
   heap (snd (SysTrayIcon_init None (VStr "tip") (ByValue v) VNone None
                (caller_with menu_A))) !! 0%nat = Some menu_A).
Proof.
  apply (C10_quit_is_appended_to_a_nonempty_list None (VStr "tip") VNone None
           (caller_with menu_A) 0%nat menu_A).
  reflexivity.
Defined.

(** The sentence of the specification fails for the empty list: the constructor returns,
    and the caller's list is as empty as before; the Quit entry sits in a new
    list at another address. *)
Lemma C10_counterexample :
  heap (caller_with []) !! 0%nat = Some [] /\
  fst (SysTrayIcon_init None (VStr "tip") (ListObject 0%nat) VNone None
         (caller_with [])) = Return tt /\
  heap (snd (SysTrayIcon_init None (VStr "tip") (ListObject 0%nat) VNone None
               (caller_with []))) !! 0%nat = Some [] /\
  heap (snd (SysTrayIcon_init None (VStr "tip") (ListObject 0%nat) VNone None
               (caller_with []))) !! 1%nat = Some [VObj quit_node].
Proof. vm_compute. repeat split. Qed.

(** ** The icon *)

(** [_load_icon] first releases the icon the controller owns, and releases
    nothing else: not the stock icon, and nothing after loading. *)
Lemma load_icon_log s :
  exists rest,
    log (os (snd (_load_icon s))) =
      (log (os s) ++
       (if owns_icon (self s) then [DestroyIcon (_hicon (self s))] else []) ++
       rest)%list /\
    forall h, ~ In (DestroyIcon h) rest.
Proof.
  destruct s as [[icon shared hover quit next actions options idx nid hwnd hicon menu]
                   h [lg fs ics nh sh ms rs]].
  cbv [_load_icon owns_icon bind gets when on_os on_self emit modify do_LoadImage
       do_LoadIcon new_handle ret self os heap log files icons next_handle shared_icon
       _icon _icon_shared _hicon set_hicon set_icon_shared set_icon snd].
  destruct (negb shared && negb (Z.eqb hicon 0)); destruct icon as [path |];
    cbv iota beta;
    try (destruct (mem path fs); cbv iota beta;
         try (destruct (mem path ics); cbv iota beta));
    repeat match goal with
           | |- context [if ?b then _ else _] => destruct b eqn:?; cbv iota beta
           end;
    try discriminate;
    eexists;
    (split; [rewrite <- ?app_assoc; simpl;
             first [reflexivity | symmetry; apply app_nil_r] |]);
    intros x; simpl; intuition discriminate.
Qed.

Section Teardown.

Variables WM_USER NIM_ADD NIM_MODIFY NIM_DELETE NIF_ICON NIF_MESSAGE NIF_TIP : Z.

(** [_destroy] releases no icon at all. *)
Lemma destroy_log s :
  exists rest,
    log (os (snd (_destroy NIM_DELETE s))) = (log (os s) ++ rest)%list /\
    (forall h, ~ In (DestroyIcon h) rest) /\
    _hicon (self (snd (_destroy NIM_DELETE s))) = _hicon (self s) /\
    _icon_shared (self (snd (_destroy NIM_DELETE s))) = _icon_shared (self s).
Proof.
  destruct s as [[icon shared hover quit next actions options idx nid hwnd hicon menu]
                   h [lg fs ics nh sh ms rs]].
  cbv [_destroy bind gets when on_os on_self emit modify call_with_self ret raise self
       os heap log files icons next_handle shared_icon _on_quit _hwnd _hicon
       _icon_shared set_hwnd set_notify_id snd].
  destruct (truthy quit); cbv iota beta;
    [destruct quit; cbv iota beta |];
    eexists;
    (split; [rewrite <- ?app_assoc; simpl;
             first [reflexivity | symmetry; apply app_nil_r] |]);
    (split; [intros x; simpl; intuition discriminate | split; reflexivity]).
Qed.

(** C8. A controller built with the icon file [app.ico] and started owns the
    icon handle that [LoadImage] gave it.  When it is shut down the window
    handle is cleared, but the log of the shell holds no [DestroyIcon] at
    all: the owned icon is not released on teardown, and the controller still
    holds its handle. *)
Theorem C8_owned_icon_is_not_released_on_teardown :
  exists s1 s2 s3,
    SysTrayIcon_init (Some "app.ico") (VStr "tip") (ByValue VNone) VNone None
      icon_machine = (Return tt, s1) /\
    start WM_USER NIM_ADD NIM_MODIFY NIF_ICON NIF_MESSAGE NIF_TIP s1 = (Return tt, s2) /\
    _hwnd (self s2) = Some 1 /\
    In (LoadImage "app.ico" 2) (log (os s2)) /\
    _hicon (self s2) = 2 /\ owns_icon (self s2) = true /\
    shutdown NIM_DELETE s2 = (Return tt, s3) /\
    _hwnd (self s3) = None /\
    In (PostQuitMessage 0) (log (os s3)) /\
    (forall h, ~ In (DestroyIcon h) (log (os s3))) /\
    _hicon (self s3) = 2 /\ owns_icon (self s3) = true.
Proof.
  eexists. eexists. eexists.
  split; [vm_compute; reflexivity |].
  split; [vm_compute; reflexivity |].
  split; [reflexivity |].
  split; [simpl; tauto |].
  split; [reflexivity |]. split; [reflexivity |].
  split; [vm_compute; reflexivity |].
  split; [reflexivity |].
  split; [simpl; tauto |].
  split; [intros h; simpl; intuition discriminate |].
  split; reflexivity.
Qed.

End Teardown.

(** ** The compiler, as a relation *)

(** What one turn of the loop returns, and the controller it leaves. *)
Lemma recompile_option_cases recur e s v s' :
  recompile_option recur e s = (Return v, s') ->
  exists o, to_menu_option e = inr o /\
    ((is_leaf o = true /\ v = leaf_node s o /\
      s' = set_menu_actions_by_id
             (<[_next_action_id s := callback o]> (_menu_actions_by_id s)) s) \/
     (is_leaf o = false /\ truthy (raw_children o) = true /\
      exists children,
        recur (raw_children o) s = (Return children, s') /\
        v = submenu_node s o children)).
Proof.
  unfold recompile_option. intros H.
  apply bind_Return in H as (o & s1 & Ho & H).
  apply lift_Return in Ho as [Ho ->]. exists o. split; [exact Ho |].
  unfold bind at 1, gets at 1 in H. simpl in H. unfold is_leaf, raw_children.
  destruct (callable (callback o) || in_special_actions (callback o)).
  - left. inversion H; subst. repeat split.
  - right. split; [reflexivity |].
    destruct (truthy (py_or _ _)); [| discriminate]. split; [reflexivity |].
    apply bind_Return in H as (children & s2 & Hc & H).
    inversion H; subst. exists children. split; [exact Hc | reflexivity].
Qed.

Lemma recompile_loop_numbered recur items :
  (forall c s0 tree s1, recur c s0 = (Return tree, s1) ->
     exists its, iterate c = inr its /\ numbered s0 its tree s1) ->
  forall acc s tree s',
    recompile_loop (recompile_option recur) items acc s = (Return tree, s') ->
    exists new, tree = (acc ++ new)%list /\ numbered s items new s'.
Proof.
  intros Hrec. induction items as [| e items IH]; intros acc s tree s' H; simpl in H.
  - inversion H; subst. exists []. rewrite app_nil_r. split; [reflexivity | constructor].
  - apply bind_Return in H as (v & s1 & Hv & H).
    apply recompile_option_cases in Hv
      as (o & Ho & [(Hl & -> & ->) | (Hl & Ht & children & Hc & ->)]).
    + unfold bind at 1, gets at 1 in H. simpl in H.
      apply IH in H as (new & -> & Hn).
      exists (leaf_node s o :: new). rewrite <- app_assoc. split; [reflexivity |].
      eapply numbered_leaf; eauto.
    + unfold bind at 1, gets at 1 in H. simpl in H.
      apply IH in H as (new & -> & Hn).
      apply Hrec in Hc as (its & Hi & Hc).
      exists (submenu_node s o children :: new). rewrite <- app_assoc.
      split; [reflexivity |]. eapply numbered_submenu; eauto.
Qed.

(** Whatever the compiler returns was built by the three rules of
    [numbered] from the items of its argument. *)
Lemma recompile_fuel_numbered n :
  forall v s tree s',
    recompile_fuel n v s = (Return tree, s') ->
    exists items, iterate v = inr items /\ numbered s items tree s'.
Proof.
  induction n as [| n IH]; intros v s tree s' H; [discriminate |]. simpl in H.
  apply bind_Return in H as (items & s1 & Hit & H).
  apply lift_Return in Hit as [Hit ->].
  apply (recompile_loop_numbered _ _ IH) in H as (new & -> & Hn).
  exists items. split; [exact Hit | exact Hn].
Qed.

(** ** What holds of every compiled tree *)

Lemma walk_tree_cons v tree : walk_tree (v :: tree) = (walk v ++ walk_tree tree)%list.
Proof. reflexivity. Qed.

Lemma walk_leaf_node s o :
  is_leaf o = true ->
  walk (leaf_node s o) = [set_action_id (VInt (_next_action_id s)) o].
Proof. intros H. simpl. unfold is_leaf in *. simpl. rewrite H. reflexivity. Qed.

Lemma walk_submenu_node s o children :
  walk (submenu_node s o children) =
  set_callback VNone
    (set_submenu (VList children) (set_action_id (VInt (_next_action_id s)) o))
  :: walk_tree children.
Proof. reflexivity. Qed.

Lemma truthy_iterate v items : truthy v = true -> iterate v = inr items -> items <> [].
Proof.
  destruct v; simpl; try discriminate.
  - destruct s; simpl; [discriminate |]. intros _ [= <-]. discriminate.
  - destruct items0; simpl; [discriminate |]. intros _ [= <-]. discriminate.
  - destruct items0; simpl; [discriminate |]. intros _ [= <-]. discriminate.
  - destruct items0; simpl; [discriminate |]. intros _ [= <-]. discriminate.
Qed.

Lemma numbered_counter s entries tree s' :
  numbered s entries tree s' ->
  _next_action_id s <= _next_action_id s' /\ length tree = length entries.
Proof.
  induction 1 as [s | s e o entries tree s' Ho Hl Hn IH
                  | s e o items children s2 entries tree s' Ho Hl Ht Hi Hc IHc Hn IH];
    simpl in *; [split; [lia | reflexivity] | split; [lia | f_equal; tauto] |].
  split; [lia | f_equal; tauto].
Qed.

(** The first node of a compiled list holds the value the counter had. *)
Lemma numbered_head s entries tree s' :
  numbered s entries tree s' -> entries <> [] ->
  exists o rest, walk_tree tree = o :: rest /\ action_id o = VInt (_next_action_id s).
Proof.
  intros H Hne. destruct H as [s | s e o entries tree s' Ho Hl Hn
                               | s e o items children s2 entries tree s' Ho Hl Ht Hi Hc Hn];
    [congruence | |].
  - rewrite walk_tree_cons, walk_leaf_node by exact Hl. eexists. eexists.
    split; reflexivity.
  - rewrite walk_tree_cons, walk_submenu_node. eexists. eexists. split; reflexivity.
Qed.

(** The compiler writes no key below the counter. *)
Lemma numbered_frame s entries tree s' :
  numbered s entries tree s' ->
  forall k, k < _next_action_id s ->
    _menu_actions_by_id s' !! k = _menu_actions_by_id s !! k.
Proof.
  induction 1 as [s | s e o entries tree s' Ho Hl Hn IH
                  | s e o items children s2 entries tree s' Ho Hl Ht Hi Hc IHc Hn IH];
    intros k Hk; [reflexivity | |].
  - rewrite IH by (simpl; lia). simpl. apply lookup_insert_ne. lia.
  - apply numbered_counter in Hc as [Hle _].
    rewrite IH by (simpl; lia). simpl. apply IHc. exact Hk.
Qed.

Lemma numbered_keys_below s entries tree s' :
  numbered s entries tree s' -> keys_below s -> keys_below s'.
Proof.
  induction 1 as [s | s e o entries tree s' Ho Hl Hn IH
                  | s e o items children s2 entries tree s' Ho Hl Ht Hi Hc IHc Hn IH];
    intros Hk; [exact Hk | |].
  - apply IH. intros k x. simpl. intros Hx.
    destruct (decide (k = _next_action_id s)) as [-> | Hne]; [lia |].
    rewrite lookup_insert_ne in Hx by congruence. apply Hk in Hx. lia.
  - apply IH. intros k x. simpl. intros Hx. apply (IHc Hk) in Hx. lia.
Qed.

Lemma node_ok_weaken lo hi lo' hi' (a a' : gmap Z value) o :
  lo' <= lo -> hi <= hi' ->
  (forall k, k < hi -> a' !! k = a !! k) ->
  node_ok lo hi a o -> node_ok lo' hi' a' o.
Proof.
  intros Hlo Hhi Ha (i & Hi & Hr & Hs & Hb). exists i.
  split; [exact Hi |]. split; [lia |]. rewrite Ha by lia. split; assumption.
Qed.

(** Every node of a compiled tree holds an id that is a key of the dispatch
    map, and every leaf is bound there to its own callback. *)
Lemma numbered_nodes s entries tree s' :
  numbered s entries tree s' ->
  Forall (node_ok (_next_action_id s) (_next_action_id s') (_menu_actions_by_id s'))
    (walk_tree tree).
Proof.
  induction 1 as [s | s e o entries tree s' Ho Hl Hn IH
                  | s e o items children s2 entries tree s' Ho Hl Ht Hi Hc IHc Hn IH].
  - constructor.
  - pose proof (numbered_counter _ _ _ _ Hn) as [Hle _]. simpl in Hle.
    pose proof (numbered_frame _ _ _ _ Hn) as Hfr. simpl in Hfr.
    rewrite walk_tree_cons, walk_leaf_node by exact Hl. simpl. constructor.
    + exists (_next_action_id s). split; [reflexivity |]. split; [lia |].
      rewrite Hfr by lia. rewrite lookup_insert_eq. split; [eauto |].
      intros _. reflexivity.
    + eapply Forall_impl; [exact IH |]. intros o'.
      apply node_ok_weaken; simpl; try lia. intros; reflexivity.
  - pose proof (numbered_counter _ _ _ _ Hc) as [Hle2 _].
    pose proof (numbered_counter _ _ _ _ Hn) as [Hle _]. simpl in Hle.
    pose proof (numbered_frame _ _ _ _ Hn) as Hfr. simpl in Hfr.
    assert (Hch : Forall (node_ok (_next_action_id s) (_next_action_id s')
                            (_menu_actions_by_id s')) (walk_tree children)).
    { eapply Forall_impl; [exact IHc |]. intros o'.
      apply node_ok_weaken; try lia. intros k Hk. apply Hfr. lia. }
    rewrite walk_tree_cons, walk_submenu_node. simpl. constructor.
    + destruct (numbered_head _ _ _ _ Hc (truthy_iterate _ _ Ht Hi))
        as (c & rest & Hw & Hid).
      rewrite Hw in Hch. inversion Hch as [| ? ? (i & Hi' & Hr & Hs & _) _]; subst.
      rewrite Hid in Hi'. inversion Hi'; subst i.
      exists (_next_action_id s). split; [reflexivity |]. split; [lia |].
      split; [exact Hs |]. unfold is_leaf. simpl. discriminate.
    + apply Forall_app_2; [exact Hch |].
      eapply Forall_impl; [exact IH |]. intros o'.
      apply node_ok_weaken; simpl; try lia. intros; reflexivity.
Qed.

(** Every key the compiler writes is the id of a leaf, bound to that leaf's
    callback. *)
Lemma numbered_keys s entries tree s' :
  numbered s entries tree s' -> keys_below s ->
  forall k x, _menu_actions_by_id s' !! k = Some x -> _next_action_id s <= k ->
    exists o, In o (walk_tree tree) /\ is_leaf o = true /\
              action_id o = VInt k /\ callback o = x.
Proof.
  induction 1 as [s | s e o entries tree s' Ho Hl Hn IH
                  | s e o items children s2 entries tree s' Ho Hl Ht Hi Hc IHc Hn IH];
    intros Hk k x Hx Hge.
  - apply Hk in Hx. lia.
  - assert (Hk' : keys_below (after_leaf o s)).
    { eapply (numbered_keys_below s [e] [leaf_node s o]); [| exact Hk].
      eapply numbered_leaf; [exact Ho | exact Hl | constructor]. }
    rewrite walk_tree_cons, walk_leaf_node by exact Hl.
    destruct (decide (k = _next_action_id s)) as [-> | Hne].
    + rewrite (numbered_frame _ _ _ _ Hn) in Hx by (simpl; lia). simpl in Hx.
      rewrite lookup_insert_eq in Hx. inversion Hx; subst x.
      eexists. split; [left; reflexivity |].
      unfold is_leaf in *. simpl. repeat split. exact Hl.
    + destruct (IH Hk' k x Hx) as (o' & Hin & Hrest); [simpl; lia |].
      exists o'. split; [right; exact Hin | exact Hrest].
  - pose proof (numbered_keys_below _ _ _ _ Hc Hk) as Hk2.
    assert (Hk' : keys_below (after_submenu s2)).
    { intros k' x'. simpl. intros Hx'. apply Hk2 in Hx'. lia. }
    rewrite walk_tree_cons, walk_submenu_node.
    destruct (Z_lt_le_dec k (_next_action_id s2 + 1)) as [Hlt | Hge'].
    + rewrite (numbered_frame _ _ _ _ Hn) in Hx by (simpl; lia). simpl in Hx.
      destruct (IHc Hk k x Hx Hge) as (o' & Hin & Hrest).
      exists o'. split; [right; apply in_or_app; left; exact Hin | exact Hrest].
    + destruct (IH Hk' k x Hx) as (o' & Hin & Hrest); [simpl; lia |].
      exists o'. split; [right; apply in_or_app; right; exact Hin | exact Hrest].
Qed.

Lemma node_ok_id lo hi a o :
  node_ok lo hi a o -> exists i, id_of o = Some i /\ lo <= i < hi.
Proof.
  intros (i & Hi & Hr & _). exists i. unfold id_of. rewrite Hi. split; [reflexivity | exact Hr].
Qed.

Lemma ids_in_range lo hi a (nodes : list MenuOption) :
  Forall (node_ok lo hi a) nodes ->
  forall i, i ∈ omap id_of nodes -> lo <= i < hi.
Proof.
  intros H i Hin. apply list_elem_of_omap in Hin as (o & Ho & Hid).
  rewrite Forall_forall in H. apply H in Ho.
  apply node_ok_id in Ho as (j & Hj & Hr). congruence.
Qed.

Lemma Forall_filter_leaf (P : MenuOption -> Prop) nodes :
  Forall P nodes -> Forall P (List.filter is_leaf nodes).
Proof.
  induction 1 as [| o l Ho Hl IH]; simpl; [constructor |].
  destruct (is_leaf o); [constructor; assumption | assumption].
Qed.

Lemma tree_ids_cons v tree : tree_ids (v :: tree) = (omap id_of (walk v) ++ tree_ids tree)%list.
Proof. unfold tree_ids. rewrite walk_tree_cons. apply omap_app. Qed.

Lemma leaf_ids_cons v tree :
  leaf_ids (v :: tree) =
  (omap id_of (List.filter is_leaf (walk v)) ++ leaf_ids tree)%list.
Proof. unfold leaf_ids. rewrite walk_tree_cons, List.filter_app. apply omap_app. Qed.

(** Along the pre-order walk the ids never decrease, and the ids of the
    leaves increase strictly. *)
Lemma numbered_sorted s entries tree s' :
  numbered s entries tree s' ->
  StronglySorted Z.le (tree_ids tree) /\ StronglySorted Z.lt (leaf_ids tree).
Proof.
  induction 1 as [s | s e o entries tree s' Ho Hl Hn IH
                  | s e o items children s2 entries tree s' Ho Hl Ht Hi Hc IHc Hn IH].
  - split; constructor.
  - pose proof (numbered_nodes _ _ _ _ Hn) as Hrest. simpl in Hrest.
    destruct IH as [IH1 IH2].
    rewrite tree_ids_cons, leaf_ids_cons, walk_leaf_node by exact Hl. simpl.
    assert (Hleaf : is_leaf (set_action_id (VInt (_next_action_id s)) o) = true)
      by exact Hl.
    rewrite Hleaf. simpl. split.
    + constructor; [exact IH1 |]. apply Forall_forall. intros i Hin.
      apply (ids_in_range _ _ _ _ Hrest) in Hin. lia.
    + constructor; [exact IH2 |]. apply Forall_forall. intros i Hin.
      apply (ids_in_range _ _ _ _ (Forall_filter_leaf _ _ Hrest)) in Hin. lia.
  - pose proof (numbered_nodes _ _ _ _ Hc) as Hch.
    pose proof (numbered_nodes _ _ _ _ Hn) as Hrest. simpl in Hrest.
    destruct IHc as [IHc1 IHc2]. destruct IH as [IH1 IH2].
    rewrite tree_ids_cons, leaf_ids_cons, walk_submenu_node. simpl.
    fold (tree_ids children). fold (leaf_ids children). split.
    + constructor.
      * apply StronglySorted_app_2; [| exact IHc1 | exact IH1].
        intros i j Hi' Hj. apply (ids_in_range _ _ _ _ Hch) in Hi'.
        apply (ids_in_range _ _ _ _ Hrest) in Hj. lia.
      * apply Forall_forall. intros i Hin. apply elem_of_app in Hin as [Hin | Hin].
        -- apply (ids_in_range _ _ _ _ Hch) in Hin. lia.
        -- apply (ids_in_range _ _ _ _ Hrest) in Hin.
           apply numbered_counter in Hc as [Hle _]. lia.
    + apply StronglySorted_app_2; [| exact IHc2 | exact IH2].
      intros i j Hi' Hj.
      apply (ids_in_range _ _ _ _ (Forall_filter_leaf _ _ Hch)) in Hi'.
      apply (ids_in_range _ _ _ _ (Forall_filter_leaf _ _ Hrest)) in Hj. lia.
Qed.


(** ** The constructor and the compiled menu *)

Lemma keys_below_reset t : keys_below (reset_ids t).
Proof. intros k x. simpl. rewrite lookup_empty. discriminate. Qed.

(** When the constructor returns, its menu was numbered from [FIRST_ID] on
    out of the caller's entries and the synthetic one. *)
Lemma init_numbered icon hover_text menu_options on_quit default_menu_index s s' :
  SysTrayIcon_init icon hover_text menu_options on_quit default_menu_index s
    = (Return tt, s') ->
  exists t,
    numbered (reset_ids (first_attributes icon hover_text on_quit))
      (supplied menu_options s ++ [VObj quit_node])
      (_menu_options (self s')) t /\
    _menu_actions_by_id (self s') = _menu_actions_by_id t /\
    _next_action_id (self s') = _next_action_id t.
Proof.
  rewrite init_eq. intros H.
  destruct (_prepare_menu_options _ _) as [[[] | e |] s1] eqn:Ep; try discriminate.
  inversion H; subst; clear H.
  destruct (prepare_target _ _ _ _ Ep) as (l & sa & Ht).
  rewrite (prepare_eq _ _ _ _ Ht) in Ep. cbv zeta in Ep.
  destruct (_recompile_menu_options_with_ids _ _) as [[tree | e |] t] eqn:Ec;
    try discriminate.
  inversion Ep; subst; clear Ep.
  apply recompile_fuel_numbered in Ec as (items & Hi & Hn).
  simpl in Hi. inversion Hi; subst items. exists t. simpl.
  rewrite (supplied_heap menu_options s) in Hn by reflexivity.
  split; [exact Hn |]. split; reflexivity.
Qed.

(** X1. In the menu of every controller the constructor returns, each node
    holds an id between [FIRST_ID] and the final value of the counter, and
    along the pre-order walk the ids never decrease. *)
Theorem ids_never_decrease
    icon hover_text menu_options on_quit default_menu_index s s' :
  SysTrayIcon_init icon hover_text menu_options on_quit default_menu_index s
    = (Return tt, s') ->
  length (tree_ids (_menu_options (self s'))) =
    length (walk_tree (_menu_options (self s'))) /\
  Forall (fun i => FIRST_ID <= i < _next_action_id (self s'))
    (tree_ids (_menu_options (self s'))) /\
  StronglySorted Z.le (tree_ids (_menu_options (self s'))).
Proof.
  intros H. apply init_numbered in H as (t & Hn & _ & Hnext).
  pose proof (numbered_nodes _ _ _ _ Hn) as Hnodes. simpl in Hnodes.
  rewrite Hnext. split; [| split].
  - unfold tree_ids. induction Hnodes as [| o l Ho Hl IH]; [reflexivity |].
    apply node_ok_id in Ho as (i & Hi & _). simpl. rewrite Hi. simpl. f_equal. exact IH.
  - apply Forall_forall. intros i Hi. apply (ids_in_range _ _ _ _ Hnodes) in Hi. exact Hi.
  - apply (numbered_sorted _ _ _ _ Hn).
Qed.

(** X2. The ids of the leaves increase strictly along the walk: no two leaves
    of a menu share an id. *)
Theorem leaf_ids_are_unique
    icon hover_text menu_options on_quit default_menu_index s s' :
  SysTrayIcon_init icon hover_text menu_options on_quit default_menu_index s
    = (Return tt, s') ->
  StronglySorted Z.lt (leaf_ids (_menu_options (self s'))) /\
  NoDup (leaf_ids (_menu_options (self s'))).
Proof.
  intros H. apply init_numbered in H as (t & Hn & _ & _).
  pose proof (numbered_sorted _ _ _ _ Hn) as [_ Hs]. split; [exact Hs |].
  induction Hs as [| i l Hs IH Hall]; constructor; [| exact IH].
  intros Hin. rewrite Forall_forall in Hall. apply Hall in Hin. lia.
Qed.

(** X3. Every leaf of the menu can be dispatched: its id is bound to its own
    callback, and the dispatcher, given that id, calls the callback with the
    controller, or destroys the window when the callback is the quit token. *)
Theorem every_leaf_is_dispatchable
    icon hover_text menu_options on_quit default_menu_index s s' o :
  SysTrayIcon_init icon hover_text menu_options on_quit default_menu_index s
    = (Return tt, s') ->
  In o (walk_tree (_menu_options (self s'))) ->
  is_leaf o = true ->
  exists i, action_id o = VInt i /\
    _menu_actions_by_id (self s') !! i = Some (callback o) /\
    _execute_menu_option i s' = (Return tt, recorded (dispatched (callback o) s') s').
Proof.
  intros H Hin Hl. apply init_numbered in H as (t & Hn & Ha & _).
  pose proof (numbered_nodes _ _ _ _ Hn) as Hnodes.
  rewrite Forall_forall in Hnodes. apply list_elem_of_In in Hin.
  destruct (Hnodes o Hin) as (i & Hi & _ & _ & Hb).
  exists i. split; [exact Hi |]. rewrite Ha. split; [auto |].
  unfold _execute_menu_option, bind, gets. simpl. rewrite Ha, (Hb Hl).
  unfold is_leaf in Hl.
  destruct (callback o) as [| b | z | str | f | l | l | kv | o' | c];
    simpl in Hl; try discriminate; try reflexivity.
  unfold in_special_actions in Hl. simpl in Hl. rewrite orb_false_r in Hl.
  simpl. rewrite Hl. reflexivity.
Qed.

(** The dispatcher on an id bound to the callback of a leaf. *)
Lemma execute_leaf s' o k :
  is_leaf o = true ->
  _menu_actions_by_id (self s') !! k = Some (callback o) ->
  _execute_menu_option k s' = (Return tt, recorded (dispatched (callback o) s') s').
Proof.
  intros Hl Hb. unfold _execute_menu_option, bind, gets. simpl. rewrite Hb.
  unfold is_leaf in Hl.
  destruct (callback o) as [| b | z | str | f | l | l | kv | o' | c];
    simpl in Hl; try discriminate; try reflexivity.
  unfold in_special_actions in Hl. simpl in Hl. rewrite orb_false_r in Hl.
  simpl. rewrite Hl. reflexivity.
Qed.

(** X4. The dispatch map of a controller holds the ids of the leaves of its
    menu and nothing else.  So the dispatcher, given any number, either
    raises [KeyError] and changes nothing, which it does for every number
    that is not the id of a leaf, or records one event: the window destroyed
    or one function called with the controller.  It never finds something it
    cannot call. *)
Theorem dispatcher_outcomes
    icon hover_text menu_options on_quit default_menu_index s s' k :
  SysTrayIcon_init icon hover_text menu_options on_quit default_menu_index s
    = (Return tt, s') ->
  (~ In k (leaf_ids (_menu_options (self s'))) /\
   _menu_actions_by_id (self s') !! k = None /\
   _execute_menu_option k s' = (Raise (KeyError k), s')) \/
  (exists o, In o (walk_tree (_menu_options (self s'))) /\ is_leaf o = true /\
     action_id o = VInt k /\ FIRST_ID <= k < _next_action_id (self s') /\
     _execute_menu_option k s' =
       (Return tt, recorded (dispatched (callback o) s') s')).
Proof.
  intros H. pose proof H as H0. apply init_numbered in H as (t & Hn & Ha & Hnext).
  pose proof (numbered_nodes _ _ _ _ Hn) as Hnodes. rewrite Forall_forall in Hnodes.
  destruct (_menu_actions_by_id (self s') !! k) as [x |] eqn:Ek.
  - right. rewrite Ha in Ek.
    assert (Hge : FIRST_ID <= k).
    { destruct (Z_lt_le_dec k FIRST_ID) as [Hlt | Hge]; [| exact Hge].
      rewrite (numbered_frame _ _ _ _ Hn) in Ek by exact Hlt.
      simpl in Ek. rewrite lookup_empty in Ek. discriminate. }
    destruct (numbered_keys _ _ _ _ Hn (keys_below_reset _) k x Ek Hge)
      as (o & Hin & Hl & Hid & Hcb).
    exists o. split; [exact Hin |]. split; [exact Hl |]. split; [exact Hid |].
    split.
    + apply list_elem_of_In in Hin. destruct (Hnodes o Hin) as (i & Hi & Hr & _).
      rewrite Hid in Hi. inversion Hi; subst i. rewrite Hnext. exact Hr.
    + apply execute_leaf; [exact Hl |]. rewrite Ha, Ek, Hcb. reflexivity.
  - left. split; [| split; [reflexivity |]].
    + intros Hin. unfold leaf_ids in Hin. apply list_elem_of_In in Hin.
      apply list_elem_of_omap in Hin as (o & Ho & Hid).
      apply list_elem_of_In in Ho. apply List.filter_In in Ho as [Ho Hl].
      apply list_elem_of_In in Ho. destruct (Hnodes o Ho) as (i & Hi & _ & _ & Hb).
      unfold id_of in Hid. rewrite Hi in Hid. inversion Hid; subst i.
      rewrite Ha in Ek. rewrite (Hb Hl) in Ek. discriminate.
    + unfold _execute_menu_option, bind, gets. simpl. rewrite Ek. reflexivity.
Qed.


Lemma numbered_keeps s entries tree s' :
  numbered s entries tree s' -> Forall2 keeps_entry entries tree.
Proof.
  induction 1 as [s | s e o entries tree s' Ho Hl Hn IH
                  | s e o items children s2 entries tree s' Ho Hl Ht Hi Hc IHc Hn IH];
    constructor; try assumption.
  - exists o. eexists. split; [exact Ho |]. split; [reflexivity |]. simpl.
    repeat split; try reflexivity. congruence.
  - exists o. eexists. split; [exact Ho |]. split; [reflexivity |]. simpl.
    repeat split; try reflexivity; try congruence.
    unfold is_leaf. simpl. symmetry. exact Hl.
Qed.

(** X6. The top level of the menu is the caller's entries in their order,
    then the synthetic entry: each node keeps the class, label, icon path,
    type, hook and flag of the entry it was made of, a leaf keeps its callback
    and a submenu has its callback set to [None]. *)
Theorem top_level_keeps_the_entries
    icon hover_text menu_options on_quit default_menu_index s s' :
  SysTrayIcon_init icon hover_text menu_options on_quit default_menu_index s
    = (Return tt, s') ->
  Forall2 keeps_entry (supplied menu_options s ++ [VObj quit_node])
    (_menu_options (self s')).
Proof.
  intros H. apply init_numbered in H as (t & Hn & _ & _).
  apply (numbered_keeps _ _ _ _ Hn).
Qed.

Lemma ids_never_decrease_witness :
  length (tree_ids (_menu_options (self tray_B'))) =
    length (walk_tree (_menu_options (self tray_B'))) /\
  Forall (fun i => FIRST_ID <= i < _next_action_id (self tray_B'))
    (tree_ids (_menu_options (self tray_B'))) /\
  StronglySorted Z.le (tree_ids (_menu_options (self tray_B'))).
Proof.
  apply (ids_never_decrease None (VStr "tip") (ByValue (VList menu_B')) VNone None
           boot tray_B').
  vm_compute. reflexivity.
Defined.

Lemma leaf_ids_are_unique_witness :
  StronglySorted Z.lt (leaf_ids (_menu_options (self tray_B'))) /\
  NoDup (leaf_ids (_menu_options (self tray_B'))).
Proof.
  apply (leaf_ids_are_unique None (VStr "tip") (ByValue (VList menu_B')) VNone None
           boot tray_B').
  vm_compute. reflexivity.
Defined.

Lemma every_leaf_is_dispatchable_witness :
  exists i,
    action_id (set_action_id (VInt 1024)
                 (mkMenuOption KMenuOption (VStr "B") VNone (VFun "cb_b") VNone VNone
                    VNone VNone VNone VNone VNone VNone)) = VInt i /\
    _menu_actions_by_id (self tray_B') !! i = Some (VFun "cb_b") /\
    _execute_menu_option i tray_B' =
      (Return tt, recorded (dispatched (VFun "cb_b") tray_B') tray_B').
Proof.
  apply (every_leaf_is_dispatchable None (VStr "tip") (ByValue (VList menu_B')) VNone
           None boot tray_B'
           (set_action_id (VInt 1024)
              (mkMenuOption KMenuOption (VStr "B") VNone (VFun "cb_b") VNone VNone
                 VNone VNone VNone VNone VNone VNone))).
  - vm_compute. reflexivity.
  - vm_compute. right. right. left. reflexivity.
  - reflexivity.
Defined.

Lemma dispatcher_outcomes_witness :
  (~ In 1025 (leaf_ids (_menu_options (self tray_B'))) /\
   _menu_actions_by_id (self tray_B') !! 1025 = None /\
   _execute_menu_option 1025 tray_B' = (Raise (KeyError 1025), tray_B')) \/
  (exists o, In o (walk_tree (_menu_options (self tray_B'))) /\ is_leaf o = true /\
     action_id o = VInt 1025 /\ FIRST_ID <= 1025 < _next_action_id (self tray_B') /\
     _execute_menu_option 1025 tray_B' =
       (Return tt, recorded (dispatched (callback o) tray_B') tray_B')).
Proof.
  apply (dispatcher_outcomes None (VStr "tip") (ByValue (VList menu_B')) VNone None
           boot tray_B' 1025).
  vm_compute. reflexivity.
Defined.


Lemma top_level_keeps_the_entries_witness :
  Forall2 keeps_entry (supplied (ByValue (VList menu_B')) boot ++ [VObj quit_node])
    (_menu_options (self tray_B')).
Proof.
  apply (top_level_keeps_the_entries None (VStr "tip") (ByValue (VList menu_B')) VNone
           None boot tray_B').
  vm_compute. reflexivity.
Defined.

(** ** Menus without submenus *)

Lemma recompile_option_leaf recur e o s :
  leaf_entry e o ->
  recompile_option recur e s =
  (Return (leaf_node s o),
   set_menu_actions_by_id
     (<[_next_action_id s := callback o]> (_menu_actions_by_id s)) s).
Proof.
  intros [Ho Hl]. unfold recompile_option. rewrite Ho. unfold is_leaf in Hl.
  unfold lift, bind at 1, ret at 1. unfold bind at 1, gets at 1. simpl.
  rewrite Hl. reflexivity.
Qed.

Lemma recompile_loop_leaves recur entries leaves :
  Forall2 leaf_entry entries leaves ->
  forall acc s,
    recompile_loop (recompile_option recur) entries acc s =
    (Return (acc ++ fst (number_leaves s leaves))%list, snd (number_leaves s leaves)).
Proof.
  induction 1 as [| e o entries leaves He Hrest IH]; intros acc s; simpl.
  - rewrite app_nil_r. reflexivity.
  - rewrite (bind_as _ _ _ _ _ (recompile_option_leaf recur e o s He)).
    unfold bind at 1, gets at 1. simpl. unfold bind at 1, modify at 1. simpl.
    change (set_next_action_id _ _) with (after_leaf o s).
    rewrite IH. destruct (number_leaves (after_leaf o s) leaves) as [tree s'].
    simpl. rewrite <- app_assoc. reflexivity.
Qed.

(** The i-th leaf takes the id [i] places after the counter's value. *)
Lemma number_leaves_spec leaves :
  forall s,
    _next_action_id (snd (number_leaves s leaves)) =
      _next_action_id s + Z.of_nat (length leaves) /\
    _menu_options (snd (number_leaves s leaves)) = _menu_options s /\
    (forall k, k < _next_action_id s ->
       _menu_actions_by_id (snd (number_leaves s leaves)) !! k =
       _menu_actions_by_id s !! k) /\
    (forall (i : nat) o, leaves !! i = Some o ->
       fst (number_leaves s leaves) !! i =
         Some (VObj (set_action_id (VInt (_next_action_id s + Z.of_nat i)) o)) /\
       _menu_actions_by_id (snd (number_leaves s leaves))
         !! (_next_action_id s + Z.of_nat i) = Some (callback o)) /\
    (forall k, _next_action_id s + Z.of_nat (length leaves) <= k ->
       _menu_actions_by_id (snd (number_leaves s leaves)) !! k =
       _menu_actions_by_id s !! k).
Proof.
  induction leaves as [| o leaves IH]; intros s; simpl.
  - split; [lia |]. split; [reflexivity |]. split; [reflexivity |].
    split; [| reflexivity]. intros i o Hi. rewrite lookup_nil in Hi. discriminate.
  - specialize (IH (after_leaf o s)).
    destruct (number_leaves (after_leaf o s) leaves) as [tree s'] eqn:E. simpl in *.
    destruct IH as (Hn & Ho & Hf & Hi & Hk).
    split; [lia |]. split; [exact Ho |]. split; [| split].
    + intros k Hlt. rewrite Hf by lia. apply lookup_insert_ne. lia.
    + intros [| i] o' Hl; simpl in Hl.
      * inversion Hl; subst o'. rewrite Z.add_0_r. split; [reflexivity |].
        rewrite Hf by lia. apply lookup_insert_eq.
      * destruct (Hi i o' Hl) as [H1 H2].
        replace (_next_action_id s + Z.of_nat (S i))
          with (_next_action_id s + 1 + Z.of_nat i) by lia.
        split; assumption.
    + intros k Hge. rewrite Hk by lia. apply lookup_insert_ne. lia.
Qed.

Lemma leaf_entry_quit : leaf_entry (VObj quit_node) quit_node.
Proof. split; reflexivity. Qed.

(** The compiler on entries that are all leaves. *)
Lemma recompile_leaves entries leaves s :
  Forall2 leaf_entry entries leaves ->
  _recompile_menu_options_with_ids (VList entries) s =
  (Return (fst (number_leaves s leaves)), snd (number_leaves s leaves)).
Proof.
  intros H. unfold _recompile_menu_options_with_ids.
  cbn [recompile_fuel iterate lift]. unfold bind at 1, ret at 1.
  rewrite (recompile_loop_leaves _ _ _ H). reflexivity.
Qed.

(** X7. A menu whose entries are all leaves always compiles, and its ids are
    consecutive: the entry at position i, counted from 0, gets the id
    [FIRST_ID + i] and the dispatch map binds that id to the entry's
    callback; the synthetic Quit entry comes last, at position n; the
    counter ends at [FIRST_ID + n + 1] and no other id is bound. *)
Theorem flat_menu_ids
    icon hover_text entries leaves on_quit default_menu_index s :
  Forall2 leaf_entry entries leaves ->
  exists s',
    SysTrayIcon_init icon hover_text (ByValue (VList entries)) on_quit
      default_menu_index s = (Return tt, s') /\
    _next_action_id (self s') = FIRST_ID + Z.of_nat (length leaves) + 1 /\
    length (_menu_options (self s')) = S (length leaves) /\
    (forall (i : nat) o, (leaves ++ [quit_node])%list !! i = Some o ->
       _menu_options (self s') !! i =
         Some (VObj (set_action_id (VInt (FIRST_ID + Z.of_nat i)) o)) /\
       _menu_actions_by_id (self s') !! (FIRST_ID + Z.of_nat i) = Some (callback o)) /\
    (forall k, k < FIRST_ID \/ FIRST_ID + Z.of_nat (length leaves) < k ->
       _menu_actions_by_id (self s') !! k = None).
Proof.
  intros H.
  assert (Hall : Forall2 leaf_entry (entries ++ [VObj quit_node])%list
                   (leaves ++ [quit_node])%list).
  { apply Forall2_app; [exact H |]. constructor; [apply leaf_entry_quit | constructor]. }
  rewrite init_by_value. rewrite (recompile_leaves _ _ _ Hall). cbv zeta.
  eexists. split; [reflexivity |]. simpl.
  destruct (number_leaves_spec (leaves ++ [quit_node])%list
              (reset_ids (first_attributes icon hover_text on_quit)))
    as (Hn & _ & Hf & Hi & Hk).
  rewrite length_app in Hn, Hk. simpl in Hn, Hk.
  split; [rewrite Hn; simpl; lia |]. split; [| split].
  - pose proof (recompile_leaves _ _ (reset_ids (first_attributes icon hover_text on_quit))
                  Hall) as Hc.
    apply recompile_fuel_numbered in Hc as (items & Hit & Hnum).
    apply numbered_counter in Hnum as [_ Hlen]. rewrite Hlen.
    simpl in Hit. inversion Hit; subst items.
    rewrite length_app. simpl. apply Forall2_length in H. lia.
  - intros i o Ho. apply Hi in Ho. exact Ho.
  - intros k [Hlt | Hgt].
    + rewrite Hf by exact Hlt. apply lookup_empty.
    + rewrite Hk by (simpl; lia). apply lookup_empty.
Qed.

Lemma flat_menu_ids_witness :
  exists s',
    SysTrayIcon_init None (VStr "tip") (ByValue (VList menu_D)) VNone None boot
      = (Return tt, s') /\
    _next_action_id (self s') = FIRST_ID + Z.of_nat 2 + 1 /\
    length (_menu_options (self s')) = 3%nat /\
    (forall (i : nat) o,
       ([mkMenuOption KMenuOption (VStr "One") VNone (VFun "one_cb") VNone VNone VNone
           VNone VNone VNone VNone VNone;
         mkMenuOption KMenuOption (VStr "Two") VNone (VFun "two_cb") VNone VNone VNone
           VNone VNone VNone VNone VNone] ++ [quit_node])%list !! i = Some o ->
       _menu_options (self s') !! i =
         Some (VObj (set_action_id (VInt (FIRST_ID + Z.of_nat i)) o)) /\
       _menu_actions_by_id (self s') !! (FIRST_ID + Z.of_nat i) = Some (callback o)) /\
    (forall k, k < FIRST_ID \/ FIRST_ID + Z.of_nat 2 < k ->
       _menu_actions_by_id (self s') !! k = None).
Proof.
  apply (flat_menu_ids None (VStr "tip") menu_D
           [mkMenuOption KMenuOption (VStr "One") VNone (VFun "one_cb") VNone VNone VNone
              VNone VNone VNone VNone VNone;
            mkMenuOption KMenuOption (VStr "Two") VNone (VFun "two_cb") VNone VNone VNone
              VNone VNone VNone VNone VNone] VNone None boot).
  repeat constructor.
Defined.

(** A compiled list of leaves is the one [number_leaves] gives. *)
Lemma numbered_leaves s entries tree s' :
  numbered s entries tree s' ->
  forall leaves, Forall2 leaf_entry entries leaves ->
    tree = fst (number_leaves s leaves) /\ s' = snd (number_leaves s leaves).
Proof.
  induction 1 as [s | s e o entries tree s' Ho Hl Hn IH
                  | s e o items children s2 entries tree s' Ho Hl Ht Hi Hc IHc Hn IH];
    intros leaves Hf.
  - inversion Hf; subst. split; reflexivity.
  - inversion Hf as [| ? o' ? leaves' [Ho' Hl'] Hrest]; subst.
    rewrite Ho in Ho'. inversion Ho'; subst o'.
    destruct (IH leaves' Hrest) as [-> ->]. simpl.
    destruct (number_leaves (after_leaf o s) leaves'). split; reflexivity.
  - inversion Hf as [| ? o' ? leaves' [Ho' Hl'] Hrest]; subst.
    rewrite Ho in Ho'. inversion Ho'; subst o'. congruence.
Qed.

Section Double_click.

Variables WM_LBUTTONDBLCLK WM_RBUTTONUP WM_LBUTTONUP : Z.
Variable _show_menu : M Machine unit.

(** X8. On a controller whose menu has no submenu, a left double click runs
    the entry at the default index, counted from 0 over the caller's entries
    and then Quit: its callback is called with the controller, and for Quit
    the window is destroyed.  When the index names no entry the notification
    raises [KeyError] and changes nothing. *)
Theorem double_click_runs_the_default_entry
    icon hover_text menu_options on_quit default_menu_index s s' leaves
    hwnd msg wparam :
  SysTrayIcon_init icon hover_text menu_options on_quit default_menu_index s
    = (Return tt, s') ->
  Forall2 leaf_entry (supplied menu_options s) leaves ->
  (forall o, 0 <= default 0 default_menu_index ->
     (leaves ++ [quit_node])%list !! Z.to_nat (default 0 default_menu_index) = Some o ->
     _notify WM_LBUTTONDBLCLK WM_RBUTTONUP WM_LBUTTONUP _show_menu
       hwnd msg wparam WM_LBUTTONDBLCLK s' =
       (Return true, recorded (dispatched (callback o) s') s')) /\
  (default 0 default_menu_index < 0 \/
   Z.of_nat (length leaves) < default 0 default_menu_index ->
     _notify WM_LBUTTONDBLCLK WM_RBUTTONUP WM_LBUTTONUP _show_menu
       hwnd msg wparam WM_LBUTTONDBLCLK s' =
       (Raise (KeyError (default 0 default_menu_index + FIRST_ID)), s')).
Proof.
  intros H Hf.
  assert (Hidx : _default_menu_index (self s') = default 0 default_menu_index).
  { rewrite init_eq in H.
    destruct (_prepare_menu_options _ _) as [[[] | e |] s1]; try discriminate.
    inversion H; subst. reflexivity. }
  apply init_numbered in H as (t & Hn & Ha & _).
  assert (Hall : Forall2 leaf_entry (supplied menu_options s ++ [VObj quit_node])%list
                   (leaves ++ [quit_node])%list).
  { apply Forall2_app; [exact Hf |]. constructor; [apply leaf_entry_quit | constructor]. }
  destruct (numbered_leaves _ _ _ _ Hn _ Hall) as [_ Ht].
  destruct (number_leaves_spec (leaves ++ [quit_node])%list
              (reset_ids (first_attributes icon hover_text on_quit)))
    as (_ & _ & Hfr & Hi & Hk).
  rewrite <- Ht, <- Ha in Hfr, Hi, Hk. rewrite length_app in Hk. simpl in Hfr, Hi, Hk.
  unfold _notify. rewrite Z.eqb_refl.
  unfold bind at 1. unfold bind at 1, gets at 1. simpl. rewrite Hidx.
  split.
  - intros o Hge Ho. pose proof (Forall2_lookup_r _ _ _ _ _ Hall Ho) as (e & _ & _ & Hl).
    destruct (Hi _ _ Ho) as [_ Hb]. rewrite Z2Nat.id in Hb by exact Hge.
    replace (default 0 default_menu_index + FIRST_ID)
      with (FIRST_ID + default 0 default_menu_index) by lia.
    rewrite (execute_leaf s' o _ Hl Hb). reflexivity.
  - intros Hout. unfold _execute_menu_option, bind, gets. simpl.
    assert (Hnone : _menu_actions_by_id (self s')
                      !! (default 0 default_menu_index + FIRST_ID) = None).
    { destruct Hout as [Hlt | Hgt].
      - rewrite Hfr by (unfold FIRST_ID; lia). apply lookup_empty.
      - rewrite Hk by (unfold FIRST_ID; lia). apply lookup_empty. }
    rewrite !Hidx, Hnone. reflexivity.
Qed.

End Double_click.

Lemma double_click_runs_the_default_entry_witness :
  (forall o, 0 <= default 0 None ->
     ([] ++ [quit_node])%list !! Z.to_nat (default 0 None) = Some o ->
     _notify 515 517 514 (ret tt) 1 1044 0 515 tray_bare =
       (Return true, recorded (dispatched (callback o) tray_bare) tray_bare)) /\
  (default 0 None < 0 \/ Z.of_nat (length (@nil MenuOption)) < default 0 None ->
     _notify 515 517 514 (ret tt) 1 1044 0 515 tray_bare =
       (Raise (KeyError (default 0 None + FIRST_ID)), tray_bare)).
Proof.
  apply (double_click_runs_the_default_entry 515 517 514 (ret tt) None (VStr "tip")
           (ByValue VNone) VNone None boot tray_bare [] 1 1044 0).
  - vm_compute. reflexivity.
  - constructor.
Defined.

(** ** Where the compiler stops *)

Lemma recompile_fuel_S n v :
  recompile_fuel (S n) v =
  bind (lift (iterate v))
    (fun items => recompile_loop (recompile_option (recompile_fuel n)) items []).
Proof. reflexivity. Qed.

(** After a run of leaves, the first entry on which a turn of the loop
    raises ends the compilation with that exception; what follows it is not
    looked at. *)
Lemma recompile_stops good leaves e rest s x :
  Forall2 leaf_entry good leaves ->
  (forall m, recompile_option (recompile_fuel (S m)) e (snd (number_leaves s leaves))
             = (Raise x, snd (number_leaves s leaves))) ->
  _recompile_menu_options_with_ids (VList (good ++ e :: rest)) s =
  (Raise x, snd (number_leaves s leaves)).
Proof.
  intros Hg He. unfold _recompile_menu_options_with_ids.
  change (depth (VList (good ++ e :: rest)))
    with (S (list_max (map depth (good ++ e :: rest)))).
  generalize (list_max (map depth (good ++ e :: rest))). intros m.
  rewrite recompile_fuel_S. cbn [iterate lift]. unfold bind at 1, ret at 1.
  rewrite recompile_loop_app. unfold bind at 1.
  rewrite (recompile_loop_leaves _ _ _ Hg). cbn [recompile_loop].
  unfold bind at 1. rewrite He. reflexivity.
Qed.

Lemma init_stops icon hover_text good leaves e rest on_quit default_menu_index s x :
  Forall2 leaf_entry good leaves ->
  (forall m t, recompile_option (recompile_fuel (S m)) e t = (Raise x, t)) ->
  SysTrayIcon_init icon hover_text (ByValue (VList (good ++ e :: rest))) on_quit
    default_menu_index s =
  (Raise x,
   mkMachine
     (snd (number_leaves (reset_ids (first_attributes icon hover_text on_quit)) leaves))
     (heap_by_value (good ++ e :: rest) s) (os s)).
Proof.
  intros Hg He. rewrite init_by_value. cbv zeta.
  rewrite <- app_assoc. simpl app.
  rewrite (recompile_stops good leaves e (rest ++ [VObj quit_node]) _ x Hg)
    by (intros m; apply He).
  unfold heap_by_value. rewrite <- app_assoc. reflexivity.
Qed.

(** The controller a stopped compilation leaves behind: no menu, the counter
    after the leaves that were numbered, and their bindings in the map. *)
Lemma stopped_state icon hover_text on_quit leaves :
  let t := snd (number_leaves (reset_ids (first_attributes icon hover_text on_quit))
                  leaves) in
  _menu_options t = [] /\
  _next_action_id t = FIRST_ID + Z.of_nat (length leaves) /\
  (forall (i : nat) o, leaves !! i = Some o ->
     _menu_actions_by_id t !! (FIRST_ID + Z.of_nat i) = Some (callback o)).
Proof.
  intros t.
  destruct (number_leaves_spec leaves
              (reset_ids (first_attributes icon hover_text on_quit)))
    as (Hn & Ho & _ & Hi & _).
  split; [exact Ho |]. split; [exact Hn |].
  intros i o Hl. apply (Hi i o Hl).
Qed.

(** X9. An entry the compiler cannot turn into a [MenuOption], met after
    entries that are all leaves, makes the constructor raise at once, however
    the list goes on: [ValueError('Unknown menu option type', type)] for a
    value that is no tuple, mapping or [MenuOption], and the [TypeError] of
    [MenuOption]'s own constructor for a tuple or mapping it does not accept.
    The controller is left without a menu, with the leaves before the entry
    bound in the dispatch map. *)
Theorem unusable_entry_raises
    icon hover_text good leaves e rest on_quit default_menu_index s x :
  Forall2 leaf_entry good leaves ->
  to_menu_option e = inl x ->
  exists s',
    SysTrayIcon_init icon hover_text (ByValue (VList (good ++ e :: rest))) on_quit
      default_menu_index s = (Raise x, s') /\
    (unrecognized e ->
     x = ValueError [VStr "Unknown menu option type"; VStr (type_name e)]) /\
    _menu_options (self s') = [] /\
    _next_action_id (self s') = FIRST_ID + Z.of_nat (length leaves) /\
    (forall (i : nat) o, leaves !! i = Some o ->
       _menu_actions_by_id (self s') !! (FIRST_ID + Z.of_nat i) = Some (callback o)).
Proof.
  intros Hg He.
  rewrite (init_stops _ _ good leaves e rest _ _ _ x Hg).
  2: { intros m t. unfold recompile_option. rewrite He. reflexivity. }
  eexists. split; [reflexivity |]. split.
  - intros Hu. destruct e; simpl in Hu; try contradiction;
      simpl in He; inversion He; reflexivity.
  - apply stopped_state.
Qed.


(** X11. A submenu cannot be given as the action of its entry: an entry
    whose action is a list, tuple or mapping and whose [submenu] is empty or
    missing, met after entries that are all leaves, makes the constructor
    raise [TypeError], whatever the action holds. *)
Theorem iterable_action_raises
    icon hover_text good leaves e o rest on_quit default_menu_index s :
  Forall2 leaf_entry good leaves ->
  to_menu_option e = inr o ->
  _non_string_iterable (callback o) = true ->
  truthy (submenu o) = false ->
  exists s',
    SysTrayIcon_init icon hover_text (ByValue (VList (good ++ e :: rest))) on_quit
      default_menu_index s =
      (Raise (TypeError "'bool' object is not iterable"), s') /\
    _menu_options (self s') = [] /\
    _next_action_id (self s') = FIRST_ID + Z.of_nat (length leaves).
Proof.
  intros Hg Ho Hn Ht.
  rewrite (init_stops _ _ good leaves e rest _ _ _
             (TypeError "'bool' object is not iterable") Hg).
  2: { intros m t. unfold recompile_option. rewrite Ho.
       unfold lift, bind at 1, ret at 1. unfold bind at 1, gets at 1. simpl.
       assert (Hc : callable (callback o) || in_special_actions (callback o) = false).
       { destruct (callback o); simpl in Hn |- *; try discriminate; reflexivity. }
       rewrite Hc. unfold py_or. rewrite Ht, Hn. reflexivity. }
  eexists. split; [reflexivity |].
  destruct (stopped_state icon hover_text on_quit leaves) as (H1 & H2 & _).
  split; assumption.
Qed.

Lemma unusable_entry_raises_witness :
  exists s',
    SysTrayIcon_init None (VStr "tip")
      (ByValue (VList ([leaf "Hi" "hi_cb"] ++ VInt 42 :: [leaf "B" "cb_b"])))
      VNone None boot =
      (Raise (ValueError [VStr "Unknown menu option type"; VStr "int"]), s') /\
    (unrecognized (VInt 42) ->
     ValueError [VStr "Unknown menu option type"; VStr "int"] =
     ValueError [VStr "Unknown menu option type"; VStr (type_name (VInt 42))]) /\
    _menu_options (self s') = [] /\
    _next_action_id (self s') = FIRST_ID + Z.of_nat 1 /\
    (forall (i : nat) o, [leaf_option "Hi" "hi_cb"] !! i = Some o ->
       _menu_actions_by_id (self s') !! (FIRST_ID + Z.of_nat i) = Some (callback o)).
Proof.
  apply (unusable_entry_raises None (VStr "tip") [leaf "Hi" "hi_cb"]
           [leaf_option "Hi" "hi_cb"] (VInt 42) [leaf "B" "cb_b"] VNone None boot
           (ValueError [VStr "Unknown menu option type"; VStr "int"])).
  - repeat constructor.
  - reflexivity.
Defined.


Lemma iterable_action_raises_witness :
  exists s',
    SysTrayIcon_init None (VStr "tip")
      (ByValue (VList ([leaf "Hi" "hi_cb"] ++ parent_entry :: [leaf "B" "cb_b"])))
      VNone None boot =
      (Raise (TypeError "'bool' object is not iterable"), s') /\
    _menu_options (self s') = [] /\
    _next_action_id (self s') = FIRST_ID + Z.of_nat 1.
Proof.
  apply (iterable_action_raises None (VStr "tip") [leaf "Hi" "hi_cb"]
           [leaf_option "Hi" "hi_cb"] parent_entry parent_by_action [leaf "B" "cb_b"]
           VNone None boot).
  - repeat constructor.
  - reflexivity.
  - reflexivity.
  - reflexivity.
Defined.

(** ** A list used twice *)

Lemma init_appends icon hover_text on_quit default_menu_index s l items :
  heap s !! l = Some items -> items <> [] ->
  heap (snd (SysTrayIcon_init icon hover_text (ListObject l) on_quit
               default_menu_index s)) !! l
    = Some (items ++ [VObj quit_node])%list.
Proof.
  intros Hl Hne.
  pose proof (init_heap icon hover_text (ListObject l) on_quit default_menu_index s)
    as H.
  simpl in H. unfold bind, gets in H. simpl in H. rewrite Hl in H.
  destruct items as [| x r]; [congruence |]. simpl in H.
  rewrite H. apply lookup_insert_eq.
Qed.

(** X12. A list that is not empty and is given to the constructor twice
    collects a Quit entry each time: after the second construction it ends
    with two of them, and the menu of the second controller, when that
    constructor returns, has two entries more than the list had at first. *)
Theorem reused_list_collects_quit_entries
    icon hover_text on_quit default_menu_index
    icon' hover_text' on_quit' default_menu_index' s l items :
  heap s !! l = Some items -> items <> [] ->
  let s1 := snd (SysTrayIcon_init icon hover_text (ListObject l) on_quit
                   default_menu_index s) in
  let second := SysTrayIcon_init icon' hover_text' (ListObject l) on_quit'
                  default_menu_index' s1 in
  heap (snd second) !! l = Some (items ++ [VObj quit_node; VObj quit_node])%list /\
  (fst second = Return tt ->
   length (_menu_options (self (snd second))) = S (S (length items))).
Proof.
  intros Hl Hne s1 second.
  assert (H1 : heap s1 !! l = Some (items ++ [VObj quit_node])%list)
    by (apply init_appends; assumption).
  assert (Hne1 : (items ++ [VObj quit_node])%list <> [])
    by (destruct items; discriminate).
  split.
  - unfold second. rewrite (init_appends _ _ _ _ _ _ _ H1 Hne1).
    rewrite <- app_assoc. reflexivity.
  - intros Hret. destruct second as [r s2] eqn:E. simpl in Hret |- *. subst r.
    apply init_numbered in E as (t & Hn & _ & _).
    apply numbered_counter in Hn as [_ Hlen]. rewrite Hlen.
    simpl. rewrite H1. simpl. rewrite !length_app. simpl. lia.
Qed.

Lemma reused_list_collects_quit_entries_witness :
  let s1 := snd (SysTrayIcon_init None (VStr "one") (ListObject 0%nat) VNone None
                   (caller_with menu_A)) in
  let second := SysTrayIcon_init None (VStr "two") (ListObject 0%nat) VNone None s1 in
  heap (snd second) !! 0%nat = Some (menu_A ++ [VObj quit_node; VObj quit_node])%list /\
  (fst second = Return tt ->
   length (_menu_options (self (snd second))) = S (S (length menu_A))).
Proof.
  apply (reused_list_collects_quit_entries None (VStr "one") VNone None
           None (VStr "two") VNone None (caller_with menu_A) 0%nat menu_A).
  - reflexivity.
  - discriminate.
Defined.

(** ** The icon, from load to teardown *)

(** ** [_load_icon], step by step *)

Lemma do_LoadImage_eq path n :
  do_LoadImage path n = (Return (image_handle path n), after_LoadImage path n).
Proof.
  destruct n as [lg fs ics nh sh ms rs].
  unfold do_LoadImage, after_LoadImage, image_handle, bind, gets. simpl.
  unfold image_handle. simpl. destruct (mem path ics); reflexivity.
Qed.

Lemma do_LoadIcon_eq n :
  do_LoadIcon n = (Return (shared_icon n), snd (emit (LoadIcon (shared_icon n)) n)).
Proof. reflexivity. Qed.

Lemma release_eq s :
  when (negb (_icon_shared (self s)) && negb (Z.eqb (_hicon (self s)) 0))
    (on_os (emit (DestroyIcon (_hicon (self s)))) ;;;
     on_self (modify (set_hicon 0))) s = (Return tt, released s).
Proof.
  unfold released, owns_icon, when.
  destruct (negb (_icon_shared (self s)) && negb (Z.eqb (_hicon (self s)) 0)).
  - reflexivity.
  - reflexivity.
Qed.

Lemma take_stock_eq s :
  (h <- on_os do_LoadIcon ;;
   on_self (modify (set_hicon h)) ;;;
   on_self (modify (set_icon_shared true)) ;;;
   on_self (modify (set_icon None))) s = (Return tt, with_stock s).
Proof. reflexivity. Qed.

Lemma take_image_eq path s :
  (h <- on_os (do_LoadImage path) ;;
   on_self (modify (set_hicon h)) ;;;
   on_self (modify (set_icon_shared false)) ;;;
   ret h) s = (Return (image_handle path (os s)), with_image path s).
Proof.
  unfold bind at 1, on_os at 1. rewrite do_LoadImage_eq. reflexivity.
Qed.

(** The whole of [_load_icon] in one equation. *)
Lemma load_icon_eq s : _load_icon s = (Return tt, loaded s).
Proof.
  unfold _load_icon. unfold bind at 1, gets at 1. cbv beta.
  rewrite (bind_as _ _ _ _ _ (release_eq s)).
  unfold bind at 1, gets at 1. cbv beta. unfold loaded. cbv zeta.
  destruct (_icon (self (released s))) as [path |].
  - rewrite bind_assoc. unfold bind at 1, gets at 1. cbv beta.
    destruct (mem path (files (os (released s)))).
    + rewrite (bind_as _ _ _ _ _ (take_image_eq path (released s))).
      unfold when. destruct (Z.eqb (image_handle path (os (released s))) 0).
      * apply take_stock_eq.
      * reflexivity.
    + unfold bind at 1, ret at 1. unfold when. rewrite Z.eqb_refl. apply take_stock_eq.
  - unfold bind at 1, ret at 1. unfold when. rewrite Z.eqb_refl. apply take_stock_eq.
Qed.

(** X13. [_load_icon] never raises and touches no list of the caller.  It
    first releases the icon the controller owns, if any, and releases nothing
    else.  It ends either owning a new handle that [LoadImage] gave for the
    existing file [_icon], or sharing the stock icon with [_icon] set to
    [None]: when there is no path, no such file, or no icon to read in it. *)
Theorem load_icon_contract s :
  exists loaded,
    fst (_load_icon s) = Return tt /\
    heap (snd (_load_icon s)) = heap s /\
    log (os (snd (_load_icon s))) =
      (log (os s) ++
       (if owns_icon (self s) then [DestroyIcon (_hicon (self s))] else []) ++
       loaded)%list /\
    (forall h, ~ In (DestroyIcon h) loaded) /\
    ((_icon_shared (self (snd (_load_icon s))) = true /\
      _hicon (self (snd (_load_icon s))) = shared_icon (os s) /\
      _icon (self (snd (_load_icon s))) = None /\
      exists tried, loaded = (tried ++ [LoadIcon (shared_icon (os s))])%list) \/
     (exists path,
        _icon (self s) = Some path /\
        mem path (files (os s)) = true /\ mem path (icons (os s)) = true /\
        next_handle (os s) <> 0 /\
        _icon_shared (self (snd (_load_icon s))) = false /\
        _hicon (self (snd (_load_icon s))) = next_handle (os s) /\
        _icon (self (snd (_load_icon s))) = Some path /\
        loaded = [LoadImage path (next_handle (os s))])).
Proof.
  rewrite load_icon_eq. cbn [fst snd].
  assert (Hrel : heap (released s) = heap s /\
                 _icon (self (released s)) = _icon (self s) /\
                 files (os (released s)) = files (os s) /\
                 icons (os (released s)) = icons (os s) /\
                 next_handle (os (released s)) = next_handle (os s) /\
                 shared_icon (os (released s)) = shared_icon (os s) /\
                 log (os (released s)) =
                   (log (os s) ++
                    (if owns_icon (self s) then [DestroyIcon (_hicon (self s))]
                     else []))%list).
  { unfold released. destruct (owns_icon (self s)); simpl;
      rewrite ?app_nil_r; repeat split. }
  destruct Hrel as (Hh & Hi & Hf & Hc & Hn & Hs & Hl).
  unfold loaded. cbv zeta. rewrite Hi.
  destruct (_icon (self s)) as [path |] eqn:Ei.
  - rewrite Hf. destruct (mem path (files (os s))) eqn:Ef.
    + unfold image_handle. rewrite Hc, Hn.
      destruct (mem path (icons (os s))) eqn:Ec.
      * destruct (Z.eqb (next_handle (os s)) 0) eqn:En.
        -- exists [LoadImage path (next_handle (os s));
                   LoadIcon (shared_icon (os s))].
           simpl. unfold image_handle. rewrite Hc, Ec, Hn, Hl, Hs, Hh.
           split; [reflexivity |]. split; [reflexivity |].
           split; [rewrite <- !app_assoc; reflexivity |].
           split; [intros h [H | [H | []]]; discriminate |].
           left. repeat split. exists [LoadImage path (next_handle (os s))]. reflexivity.
        -- exists [LoadImage path (next_handle (os s))].
           simpl. unfold image_handle. rewrite Hc, Ec, Hn, Hl, Hh.
           split; [reflexivity |]. split; [reflexivity |].
           split; [rewrite <- !app_assoc; reflexivity |].
           split; [intros h [H | []]; discriminate |].
           right. exists path. apply Z.eqb_neq in En. repeat split; assumption.
      * rewrite Z.eqb_refl.
        exists [LoadImage path 0; LoadIcon (shared_icon (os s))].
        simpl. unfold image_handle. rewrite Hc, Ec, Hl, Hs, Hh.
        split; [reflexivity |]. split; [reflexivity |].
        split; [rewrite <- !app_assoc; reflexivity |].
        split; [intros h [H | [H | []]]; discriminate |].
        left. repeat split. exists [LoadImage path 0]. reflexivity.
    + exists [LoadIcon (shared_icon (os s))]. simpl. rewrite Hl, Hs, Hh.
      split; [reflexivity |]. split; [reflexivity |].
      split; [rewrite <- ?app_assoc; reflexivity |].
      split; [intros h [H | []]; discriminate |].
      left. repeat split. exists []. reflexivity.
  - exists [LoadIcon (shared_icon (os s))]. simpl. rewrite Hl, Hs, Hh.
    split; [reflexivity |]. split; [reflexivity |].
    split; [rewrite <- ?app_assoc; reflexivity |].
    split; [intros h [H | []]; discriminate |].
    left. repeat split. exists []. reflexivity.
Qed.

Section Lifecycle.

Variables WM_USER NIM_ADD NIM_MODIFY NIM_DELETE NIF_ICON NIF_MESSAGE NIF_TIP : Z.


Lemma loaded_hwnd s : _hwnd (self (loaded s)) = _hwnd (self s).
Proof.
  unfold loaded, released, with_stock, with_image. cbv zeta.
  destruct (owns_icon (self s)); simpl;
    destruct (_icon (self s)) as [path |]; simpl; try reflexivity;
    destruct (mem path _); simpl; try reflexivity;
    destruct (Z.eqb _ 0); reflexivity.
Qed.

Lemma refresh_icon_eq s : _refresh_icon WM_USER NIM_ADD NIM_MODIFY NIF_ICON NIF_MESSAGE NIF_TIP s = (Return tt, refreshed WM_USER NIM_ADD NIM_MODIFY NIF_ICON NIF_MESSAGE NIF_TIP s).
Proof.
  unfold _refresh_icon, refreshed. unfold bind at 1, gets at 1. cbv beta.
  destruct (_hwnd (self s)) as [h |]; [| reflexivity].
  unfold bind at 1, gets at 1. cbv beta. unfold when.
  destruct (Z.eqb (_hicon (self s)) 0).
  - rewrite (bind_as _ _ _ _ _ (load_icon_eq s)). reflexivity.
  - reflexivity.
Qed.



Lemma destroy_eq s :
  _destroy NIM_DELETE s =
  if truthy (_on_quit (self s)) then
    match _on_quit (self s) with
    | VFun f => (Return tt, destroyed NIM_DELETE (recorded (Called f (self s)) s))
    | v => (Raise (TypeError ("'" ++ type_name v ++ "' object is not callable")), s)
    end
  else (Return tt, destroyed NIM_DELETE s).
Proof.
  unfold _destroy. unfold bind at 1, gets at 1. cbv beta. unfold when.
  destruct (truthy (_on_quit (self s))) eqn:Et.
  - destruct (_on_quit (self s)); try reflexivity.
  - reflexivity.
Qed.

End Lifecycle.

Lemma released_facts s :
  heap (released s) = heap s /\
  set_hicon (_hicon (self s)) (self (released s)) = self s /\
  owns_icon (self (released s)) = false /\
  os (released s) =
    mkNative (log (os s) ++ release_events (self s)) (files (os s)) (icons (os s))
      (next_handle (os s)) (shared_icon (os s)) (menu_state (os s)) (returns (os s)).
Proof.
  unfold released, release_events.
  destruct s as [t h n]. destruct t, n. simpl.
  destruct (owns_icon _) eqn:Eo; simpl.
  - repeat split. unfold owns_icon. simpl. apply andb_false_r.
  - rewrite app_nil_r. repeat split. exact Eo.
Qed.

(** What [_load_icon] leaves: the log, the handle, and everything it does
    not write. *)
Lemma loaded_facts s :
  heap (loaded s) = heap s /\
  log (os (loaded s)) = (log (os s) ++ release_events (self s) ++ load_events s)%list /\
  _hicon (self (loaded s)) = loaded_handle s /\
  _hwnd (self (loaded s)) = _hwnd (self s) /\
  _notify_id (self (loaded s)) = _notify_id (self s) /\
  _hover_text (self (loaded s)) = _hover_text (self s) /\
  _on_quit (self (loaded s)) = _on_quit (self s) /\
  shared_icon (os (loaded s)) = shared_icon (os s) /\
  files (os (loaded s)) = files (os s) /\
  icons (os (loaded s)) = icons (os s).
Proof.
  destruct (released_facts s) as (Hh & Hself & _ & Hos).
  assert (Hf : _icon (self (released s)) = _icon (self s) /\
               _hwnd (self (released s)) = _hwnd (self s) /\
               _notify_id (self (released s)) = _notify_id (self s) /\
               _hover_text (self (released s)) = _hover_text (self s) /\
               _on_quit (self (released s)) = _on_quit (self s)).
  { rewrite <- Hself. repeat split. }
  destruct Hf as (Hi & Hw & Hn & Ht & Hq).
  assert (Ho : log (os (released s)) = (log (os s) ++ release_events (self s))%list /\
               files (os (released s)) = files (os s) /\
               icons (os (released s)) = icons (os s) /\
               next_handle (os (released s)) = next_handle (os s) /\
               shared_icon (os (released s)) = shared_icon (os s)).
  { rewrite Hos. repeat split. }
  destruct Ho as (Hl & Hfi & Hic & Hnh & Hsh).
  unfold loaded, load_events, loaded_handle, image_handle. cbv zeta.
  rewrite Hi, Hfi, Hic, Hnh.
  destruct (_icon (self s)) as [path |].
  - destruct (mem path (files (os s))).
    + simpl andb. unfold with_image, with_stock, after_LoadImage, image_handle.
      destruct (mem path (icons (os s))) eqn:Ec.
      * destruct (Z.eqb (next_handle (os s)) 0); cbn;
          rewrite ?Hl, ?Hic, ?Ec, ?Hnh, ?Hsh, <- ?app_assoc; repeat split; assumption.
      * rewrite Z.eqb_refl. cbn.
        rewrite ?Hl, ?Hic, ?Ec, ?Hnh, ?Hsh, <- ?app_assoc. repeat split; assumption.
    + unfold with_stock. cbn. rewrite ?Hl, ?Hsh, <- ?app_assoc.
      repeat split; assumption.
  - unfold with_stock. cbn. rewrite ?Hl, ?Hsh, <- ?app_assoc.
    repeat split; assumption.
Qed.

Section Lifecycle_facts.

Variables WM_USER NIM_ADD NIM_MODIFY NIM_DELETE NIF_ICON NIF_MESSAGE NIF_TIP : Z.

Lemma owns_icon_zero t : _hicon t = 0 -> release_events t = [].
Proof.
  intros H. unfold release_events, owns_icon. rewrite H. simpl.
  rewrite andb_false_r. reflexivity.
Qed.

(** What [_refresh_icon] leaves on a controller with the window [h]. *)
Lemma refreshed_facts s h :
  _hwnd (self s) = Some h ->
  let s' := refreshed WM_USER NIM_ADD NIM_MODIFY NIF_ICON NIF_MESSAGE NIF_TIP s in
  log (os s') =
    (log (os s) ++
     (if Z.eqb (_hicon (self s)) 0 then load_events s else []) ++
     [Shell_NotifyIcon (notify_message NIM_ADD NIM_MODIFY (self s)) (Some h)
        (Some (notify_data WM_USER NIF_ICON NIF_MESSAGE NIF_TIP h (self s')))])%list /\
  _notify_id (self s') =
    Some (notify_data WM_USER NIF_ICON NIF_MESSAGE NIF_TIP h (self s')) /\
  _hwnd (self s') = Some h /\
  _hicon (self s') =
    (if Z.eqb (_hicon (self s)) 0 then loaded_handle s else _hicon (self s)) /\
  _hover_text (self s') = _hover_text (self s) /\
  _on_quit (self s') = _on_quit (self s) /\
  heap s' = heap s.
Proof.
  intros Hw s'. subst s'. unfold refreshed. rewrite Hw.
  destruct (loaded_facts s) as (Hh & Hl & Hi & Hw' & Hn & Ht & Hq & _).
  destruct (Z.eqb (_hicon (self s)) 0) eqn:E0.
  - apply Z.eqb_eq in E0. rewrite (owns_icon_zero _ E0) in Hl. simpl in Hl.
    unfold rendered, notify_message, notify_data. cbn.
    rewrite Hl, Hn, Hi, Ht, Hq, Hh, <- ?app_assoc. repeat split. congruence.
  - unfold rendered, notify_message, notify_data. cbn. repeat split. exact Hw.
Qed.

(** X14. Without a window [_refresh_icon] does nothing.  With one it never
    raises, loads an icon first exactly when the controller holds none, and
    then tells the shell once: with [NIM_ADD] when the controller has no
    notification entry yet, with [NIM_MODIFY] when it has one.  The entry it
    keeps carries the window, the icon handle it now holds and the hover
    text. *)
Theorem refresh_icon_adds_then_modifies s :
  match _hwnd (self s) with
  | None =>
      _refresh_icon WM_USER NIM_ADD NIM_MODIFY NIF_ICON NIF_MESSAGE NIF_TIP s
        = (Return tt, s)
  | Some h =>
      exists s' nid,
        _refresh_icon WM_USER NIM_ADD NIM_MODIFY NIF_ICON NIF_MESSAGE NIF_TIP s
          = (Return tt, s') /\
        log (os s') =
          (log (os s) ++
           (if Z.eqb (_hicon (self s)) 0 then load_events s else []) ++
           [Shell_NotifyIcon
              (match _notify_id (self s) with
               | Some _ => NIM_MODIFY
               | None => NIM_ADD
               end) (Some h) (Some nid)])%list /\
        _notify_id (self s') = Some nid /\
        _hwnd (self s') = Some h /\
        nd_hwnd nid = h /\ nd_message nid = WM_USER + 20 /\
        nd_hicon nid = _hicon (self s') /\ nd_tip nid = _hover_text (self s) /\
        _hicon (self s') =
          (if Z.eqb (_hicon (self s)) 0 then loaded_handle s else _hicon (self s))
  end.
Proof.
  rewrite refresh_icon_eq.
  destruct (_hwnd (self s)) as [h |] eqn:Hw.
  - destruct (refreshed_facts s h Hw) as (Hl & Hn & Hw' & Hi & Ht & _).
    eexists. eexists. split; [reflexivity |].
    split; [exact Hl |]. split; [exact Hn |]. split; [exact Hw' |].
    split; [reflexivity |]. split; [reflexivity |]. split; [reflexivity |].
    split; [exact Ht | exact Hi].
  - unfold refreshed. rewrite Hw. reflexivity.
Qed.

End Lifecycle_facts.

Section Start_and_shutdown.

Variables WM_USER NIM_ADD NIM_MODIFY NIM_DELETE NIF_ICON NIF_MESSAGE NIF_TIP : Z.







(** X17. When the quit callback is something truthy that is not callable,
    the handler [_destroy] raises [TypeError] at its first statement, before
    anything is torn down: the shell is told nothing, and the controller
    keeps its window handle and its notification entry. *)
Theorem destroy_with_a_bad_quit_callback s :
  truthy (_on_quit (self s)) = true ->
  callable (_on_quit (self s)) = false ->
  _destroy NIM_DELETE s =
  (Raise (TypeError ("'" ++ type_name (_on_quit (self s)) ++ "' object is not callable")),
   s).
Proof.
  intros Ht Hc. rewrite destroy_eq, Ht.
  destruct (_on_quit (self s)); try reflexivity. discriminate.
Qed.


End Start_and_shutdown.

Section Update.

Variables WM_USER NIM_ADD NIM_MODIFY NIM_DELETE NIF_ICON NIF_MESSAGE NIF_TIP : Z.

Lemma update_eq icon hover_text s :
  update WM_USER NIM_ADD NIM_MODIFY NIF_ICON NIF_MESSAGE NIF_TIP icon hover_text s =
  (Return tt,
   refreshed WM_USER NIM_ADD NIM_MODIFY NIF_ICON NIF_MESSAGE NIF_TIP
     (assigned_by_update icon hover_text s)).
Proof.
  unfold update, assigned_by_update, when. cbv zeta.
  destruct icon as [p |].
  - destruct (negb (String.eqb p "")).
    + unfold bind at 1. unfold bind at 1, on_self at 1, modify at 1. cbn [self heap os].
      rewrite load_icon_eq.
      destruct (truthy hover_text); rewrite <- refresh_icon_eq; reflexivity.
    + unfold bind at 1, ret at 1.
      destruct (truthy hover_text); rewrite <- refresh_icon_eq; reflexivity.
  - unfold bind at 1, ret at 1.
    destruct (truthy hover_text); rewrite <- refresh_icon_eq; reflexivity.
Qed.

Lemma loaded_handle_nonzero s : shared_icon (os s) <> 0 -> loaded_handle s <> 0.
Proof.
  intros Hs. unfold loaded_handle. destruct (_icon (self s)) as [path |]; [| exact Hs].
  destruct (mem path (files (os s))); simpl; [| exact Hs].
  destruct (Z.eqb (image_handle path (os s)) 0) eqn:E; simpl; [exact Hs |].
  apply Z.eqb_neq. exact E.
Qed.

(** X19. [update] with an icon path that is not empty never raises.  It
    releases the icon the controller owns, then loads the new one, the stock
    icon standing in when the path is no readable file, and then, on a
    started controller only, tells the shell once with the handle it now
    holds.  The hover text is replaced only by a text that is not empty. *)
Theorem update_replaces_the_icon s p hover_text :
  p <> "" ->
  shared_icon (os s) <> 0 ->
  exists s',
    update WM_USER NIM_ADD NIM_MODIFY NIF_ICON NIF_MESSAGE NIF_TIP (Some p) hover_text s
      = (Return tt, s') /\
    log (os s') =
      (log (os s) ++ release_events (self s) ++
       load_events (mkMachine (set_icon (Some p) (self s)) (heap s) (os s)) ++
       match _hwnd (self s) with
       | Some h =>
           [Shell_NotifyIcon (notify_message NIM_ADD NIM_MODIFY (self s)) (Some h)
              (Some (notify_data WM_USER NIF_ICON NIF_MESSAGE NIF_TIP h (self s')))]
       | None => []
       end)%list /\
    _hicon (self s') =
      loaded_handle (mkMachine (set_icon (Some p) (self s)) (heap s) (os s)) /\
    _hicon (self s') <> 0 /\
    _hover_text (self s') =
      (if truthy hover_text then hover_text else _hover_text (self s)).
Proof.
  intros Hp Hs. rewrite update_eq. eexists. split; [reflexivity |].
  unfold assigned_by_update. cbv zeta.
  assert (Hpe : negb (String.eqb p "") = true).
  { apply negb_true_iff. apply String.eqb_neq. exact Hp. }
  rewrite Hpe.
  set (s0 := mkMachine (set_icon (Some p) (self s)) (heap s) (os s)).
  destruct (loaded_facts s0) as (Hh & Hl & Hi & Hw & Hn & Ht & Hq & _).
  pose proof (loaded_handle_nonzero s0 Hs) as Hnz.
  set (s1 := if truthy hover_text
             then mkMachine (set_hover_text hover_text (self (loaded s0)))
                    (heap (loaded s0)) (os (loaded s0))
             else loaded s0).
  assert (H1 : log (os s1) = log (os (loaded s0)) /\
               _hicon (self s1) = loaded_handle s0 /\
               _hwnd (self s1) = _hwnd (self s) /\
               _notify_id (self s1) = _notify_id (self s) /\
               _hover_text (self s1) =
                 (if truthy hover_text then hover_text else _hover_text (self s))).
  { unfold s1. destruct (truthy hover_text); cbn; repeat split; assumption. }
  destruct H1 as (Hl1 & Hi1 & Hw1 & Hn1 & Ht1).
  assert (Hz : Z.eqb (_hicon (self s1)) 0 = false)
    by (apply Z.eqb_neq; rewrite Hi1; exact Hnz).
  destruct (_hwnd (self s)) as [h |] eqn:Hws.
  - destruct (refreshed_facts WM_USER NIM_ADD NIM_MODIFY NIF_ICON NIF_MESSAGE NIF_TIP
                s1 h Hw1) as (Hlr & _ & _ & Hir & Htr & _).
    rewrite Hz in Hlr, Hir. rewrite Hlr, Hir, Htr, Hl1, Hl, Hi1, Ht1.
    unfold notify_message. rewrite Hn1.
    split; [rewrite <- !app_assoc; reflexivity |]. repeat split. exact Hnz.
  - unfold refreshed. rewrite Hw1. rewrite Hl1, Hl, Hi1, Ht1, app_nil_r.
    repeat split. exact Hnz.
Qed.

End Update.

(** ** The lifecycle on concrete machines *)



Lemma destroy_with_a_bad_quit_callback_witness :
  _destroy 2 tray_bad_quit =
  (Raise (TypeError "'int' object is not callable"), tray_bad_quit).
Proof.
  apply (destroy_with_a_bad_quit_callback 2 tray_bad_quit).
  - vm_compute. reflexivity.
  - vm_compute. reflexivity.
Defined.


Lemma update_replaces_the_icon_witness :
  exists s',
    update 1024 0 1 2 1 4 (Some "app.ico") VNone icon_machine = (Return tt, s') /\
    log (os s') =
      (log (os icon_machine) ++ release_events (self icon_machine) ++
       load_events (mkMachine (set_icon (Some "app.ico") (self icon_machine))
                      (heap icon_machine) (os icon_machine)) ++
       match _hwnd (self icon_machine) with
       | Some h =>
           [Shell_NotifyIcon (notify_message 0 1 (self icon_machine)) (Some h)
              (Some (notify_data 1024 2 1 4 h (self s')))]
       | None => []
       end)%list /\
    _hicon (self s') =
      loaded_handle (mkMachine (set_icon (Some "app.ico") (self icon_machine))
                       (heap icon_machine) (os icon_machine)) /\
    _hicon (self s') <> 0 /\
    _hover_text (self s') =
      (if truthy VNone then VNone else _hover_text (self icon_machine)).
Proof.
  apply (update_replaces_the_icon 1024 0 1 2 1 4 icon_machine "app.ico" VNone).
  - discriminate.
  - vm_compute. discriminate.
Defined.

(** ** What [refresh] tells the shell *)

Section Check_mark.

Variables MFS_CHECKED MFS_UNCHECKED MF_BYPOSITION : Z.

Lemma land_not_one st : Z.land MFS_CHECKED 1 = 0 -> Z.land st MFS_CHECKED <> 1.
Proof.
  intros H E.
  assert (Hb : Z.land (Z.land st MFS_CHECKED) 1 = 0).
  { rewrite <- Z.land_assoc, H. apply Z.land_0_r. }
  rewrite E in Hb. discriminate.
Qed.

(** X20. A checkbox that is part of a built menu, with a boolean flag after
    its hook has been asked, and a check bit that is not the lowest bit (it
    is 8 in [win32con]).  When the flag is set, [refresh] calls
    [CheckMenuItem] with [MF_BYPOSITION | MFS_CHECKED] every time, whether
    or not the item is shown checked: [True] never equals the masked menu
    state.  When the flag is clear, [refresh] calls [CheckMenuItem] with
    [MF_BYPOSITION | MFS_UNCHECKED] exactly when the item is shown checked.
    It makes no other call. *)
Theorem refresh_syncs_the_check_mark o n m p b :
  klass o = KCheckBoxMenuOption ->
  menu_handle o = VInt m ->
  menu_position o = VInt p ->
  current_flag o n = VBool b ->
  Z.land MFS_CHECKED 1 = 0 ->
  exists n',
    refresh MFS_CHECKED MFS_UNCHECKED MF_BYPOSITION o n
      = (Return (set_checked (VBool b) o), n') /\
    log n' =
      (log n ++
       if b then [CheckMenuItem m p (Z.lor MF_BYPOSITION MFS_CHECKED)]
       else if Z.eqb (shown_checked MFS_CHECKED m p n) 0 then []
            else [CheckMenuItem m p (Z.lor MF_BYPOSITION MFS_UNCHECKED)])%list.
Proof.
  intros Hk Hm Hp Hc Hbit. unfold refresh. rewrite Hk.
  assert (Hg : _get_checked o n = (Return (set_checked (VBool b) o), n)).
  { rewrite get_checked_spec. f_equal. f_equal.
    unfold current_flag in Hc. destruct (check_hook o); try rewrite Hc;
      try (rewrite <- Hc; destruct o; reflexivity). }
  rewrite (bind_as _ _ _ _ _ Hg). cbn [menu_handle menu_position set_checked checked].
  rewrite Hm, Hp. unfold as_int. unfold bind at 1, ret at 1.
  unfold bind at 1, ret at 1. unfold bind at 1, GetMenuState at 1, gets at 1.
  fold (shown_checked MFS_CHECKED m p n).
  pose proof (land_not_one (default (-1) (menu_state n !! (m, p))) Hbit) as Hne.
  fold (shown_checked MFS_CHECKED m p n) in Hne.
  unfold ne_int. destruct b; cbn [Z.b2z truthy].
  - apply Z.eqb_neq in Hne. rewrite Z.eqb_sym in Hne. rewrite Hne. cbn [negb].
    eexists. split; reflexivity.
  - rewrite (Z.eqb_sym 0). destruct (Z.eqb (shown_checked MFS_CHECKED m p n) 0); cbn [negb].
    + eexists. split; [reflexivity |]. rewrite app_nil_r. reflexivity.
    + eexists. split; reflexivity.
Qed.

End Check_mark.

Lemma refresh_syncs_the_check_mark_witness :
  exists n',
    refresh 8 0 1024 hooked_box muted_shell
      = (Return (set_checked (VBool true) hooked_box), n') /\
    log n' =
      (log muted_shell ++
       if true then [CheckMenuItem 7 0 (Z.lor 1024 8)]
       else if Z.eqb (shown_checked 8 7 0 muted_shell) 0 then []
            else [CheckMenuItem 7 0 (Z.lor 1024 0)])%list.
Proof.
  apply (refresh_syncs_the_check_mark 8 0 1024 hooked_box muted_shell 7 0 true);
    reflexivity.
Defined.

(** ** Building the popup menu *)


Lemma set_checked_same (o : MenuOption) : set_checked (checked o) o = o.
Proof. destruct o. reflexivity. Qed.




Section Menus_facts.

Variables MFS_CHECKED MFS_UNCHECKED : Z.
Variable _prep_menu_icon : value -> M Native Z.
Hypothesis prep_returns :
  forall icon n, exists h n', _prep_menu_icon icon n = (Return h, n').




End Menus_facts.

(** ** Refreshing the menu *)

Section Refreshing_facts.

Variables MFS_CHECKED MFS_UNCHECKED MF_BYPOSITION : Z.

(** [refresh] on a node that is not part of a built menu, or is so at an
    integer position: it returns the node with its flag recomputed, and
    calls [CheckMenuItem] at most. *)
Lemma refresh_node o n :
  menu_handle o = VNone \/
    (exists m p, menu_handle o = VInt m /\ menu_position o = VInt p) ->
  exists n' evs,
    refresh MFS_CHECKED MFS_UNCHECKED MF_BYPOSITION o n
      = (Return (set_checked (flag_after n o) o), n') /\
    log n' = (log n ++ evs)%list /\ Forall is_CheckMenuItem evs /\
    returns n' = returns n.
Proof.
  intros Hh. unfold refresh, flag_after. destruct (klass o).
  - exists n, []. rewrite set_checked_same. split; [reflexivity |].
    split; [symmetry; apply app_nil_r |]. split; [constructor | reflexivity].
  - assert (Hg : _get_checked o n = (Return (set_checked (current_flag o n) o), n)).
    { rewrite get_checked_spec. unfold current_flag.
      destruct (check_hook o); try rewrite set_checked_same; reflexivity. }
    rewrite (bind_as _ _ _ _ _ Hg). cbn [menu_handle menu_position set_checked checked].
    destruct Hh as [Hn | (m & p & Hm & Hp)].
    + rewrite Hn. exists n, []. split; [reflexivity |].
      split; [symmetry; apply app_nil_r |]. split; [constructor | reflexivity].
    + rewrite Hm, Hp. unfold as_int. unfold bind at 1, ret at 1.
      unfold bind at 1, ret at 1. unfold bind at 1, GetMenuState at 1, gets at 1.
      destruct (ne_int _ _).
      * eexists. eexists. split; [reflexivity |]. cbn.
        split; [reflexivity |]. split; [repeat constructor | reflexivity].
      * exists n, []. split; [reflexivity |].
        split; [symmetry; apply app_nil_r |]. split; [constructor | reflexivity].
Qed.

Lemma flag_after_ext n n' o : returns n' = returns n -> flag_after n' o = flag_after n o.
Proof.
  intros H. unfold flag_after, current_flag. rewrite H. reflexivity.
Qed.

Lemma refreshed_node_ext n n' o o' :
  returns n' = returns n -> refreshed_node n' o o' -> refreshed_node n o o'.
Proof.
  intros H. unfold refreshed_node. rewrite (flag_after_ext _ _ _ H). tauto.
Qed.

Lemma depth_cons_head (v : value) l : (S (depth v) <= depth (VList (v :: l)))%nat.
Proof. simpl. lia. Qed.

Lemma depth_cons_tail (v : value) l : (depth (VList l) <= depth (VList (v :: l)))%nat.
Proof. simpl. lia. Qed.

(** The loop on a compiled list of tidy nodes. *)
Lemma refresh_loop_numbered s entries tree s' :
  numbered s entries tree s' ->
  Forall tidy (walk_tree tree) ->
  forall fuel n, (depth (VList tree) <= fuel)%nat ->
    exists tree' n' evs,
      refresh_loop
        (refresh_item MFS_CHECKED MFS_UNCHECKED MF_BYPOSITION
           (refresh_fuel MFS_CHECKED MFS_UNCHECKED MF_BYPOSITION fuel)) tree n
        = (Return tree', n') /\
      Forall2 (refreshed_node n) (walk_tree tree) (walk_tree tree') /\
      log n' = (log n ++ evs)%list /\ Forall is_CheckMenuItem evs /\
      returns n' = returns n.
Proof.
  induction 1 as [s | s e o entries tree s' Ho Hl Hn IH
                  | s e o items children s2 entries tree s' Ho Hl Ht Hi Hc IHc Hn IH];
    intros Htidy fuel n Hfuel.
  - exists [], n, []. split; [reflexivity |]. split; [constructor |].
    split; [symmetry; apply app_nil_r |]. split; [constructor | reflexivity].
  - rewrite walk_tree_cons, walk_leaf_node in Htidy by exact Hl.
    inversion Htidy as [| ? ? [Hsub Hh] Hrest]; subst.
    destruct (refresh_node (set_action_id (VInt (_next_action_id s)) o) n Hh)
      as (n1 & ev1 & Hr & Hlog1 & Hev1 & Hret1).
    assert (Hfuel' : (depth (VList tree) <= fuel)%nat).
    { pose proof (depth_cons_tail (leaf_node s o) tree). lia. }
    destruct (IH Hrest fuel n1 Hfuel') as (tree' & n2 & ev2 & Hloop & Hw & Hlog2 & Hev2 & Hret2).
    cbn [refresh_loop]. unfold leaf_node at 1. unfold refresh_item at 1.
    rewrite (bind_assoc _ _ _ n). rewrite (bind_as _ _ _ _ _ Hr).
    cbn [submenu set_checked].
    assert (Hsub' : truthy (submenu (set_action_id (VInt (_next_action_id s)) o)) = false).
    { apply Hsub. unfold is_leaf in *. exact Hl. }
    rewrite Hsub'.
    unfold bind at 1, ret at 1. rewrite (bind_as _ _ _ _ _ Hloop).
    eexists. exists n2, (ev1 ++ ev2)%list. split; [reflexivity |].
    split; [| split; [| split]].
    + rewrite !walk_tree_cons. unfold leaf_node. cbn [walk].
      assert (Hl1 : is_leaf (set_action_id (VInt (_next_action_id s)) o) = true)
        by exact Hl.
      rewrite Hl1.
      assert (Hl2 : is_leaf
                      (set_checked
                         (flag_after n (set_action_id (VInt (_next_action_id s)) o))
                         (set_action_id (VInt (_next_action_id s)) o)) = true)
        by exact Hl.
      rewrite Hl2. cbn [app]. constructor.
      * unfold refreshed_node. cbn. repeat split.
      * eapply Forall2_impl; [exact Hw |]. intros a b. apply refreshed_node_ext. exact Hret1.
    + rewrite Hlog2, Hlog1, <- app_assoc. reflexivity.
    + apply Forall_app. split; assumption.
    + congruence.
  - rewrite walk_tree_cons, walk_submenu_node in Htidy.
    inversion Htidy as [| ? ? [_ Hh] Hrest]; subst.
    apply Forall_app in Hrest as [Hkids Hrest].
    set (nd := set_callback VNone
                 (set_submenu (VList children)
                    (set_action_id (VInt (_next_action_id s)) o))) in *.
    destruct (refresh_node nd n Hh) as (n1 & ev1 & Hr & Hlog1 & Hev1 & Hret1).
    assert (Hne : children <> []).
    { pose proof (truthy_iterate _ _ Ht Hi) as Hitems.
      apply numbered_counter in Hc as [_ Hlen].
      destruct children; [destruct items; [congruence | discriminate] | discriminate]. }
    assert (Hf : exists f', fuel = S f' /\ (depth (VList children) <= f')%nat).
    { pose proof (depth_cons_head (submenu_node s o children) tree) as Hd.
      change (depth (submenu_node s o children)) with (S (depth (VList children))) in Hd.
      destruct fuel as [| f']; [lia |]. exists f'. split; [reflexivity | lia]. }
    destruct Hf as (f' & Hf & Hd).
    destruct (IHc Hkids f' n1 Hd)
      as (children' & n2 & ev2 & Hloopc & Hwc & Hlog2 & Hev2 & Hret2).
    assert (Hrec : refresh_fuel MFS_CHECKED MFS_UNCHECKED MF_BYPOSITION fuel
                     (VList children) n1 = (Return (VList children'), n2)).
    { rewrite Hf. cbn [refresh_fuel iterate lift]. unfold bind at 1, ret at 1.
      rewrite (bind_as _ _ _ _ _ Hloopc). reflexivity. }
    assert (Hfuel' : (depth (VList tree) <= fuel)%nat).
    { pose proof (depth_cons_tail (submenu_node s o children) tree). lia. }
    destruct (IH Hrest fuel n2 Hfuel')
      as (tree' & n3 & ev3 & Hloop & Hw & Hlog3 & Hev3 & Hret3).
    cbn [refresh_loop]. unfold submenu_node at 1. fold nd. unfold refresh_item at 1.
    rewrite (bind_assoc _ _ _ n). rewrite (bind_as _ _ _ _ _ Hr).
    assert (Hsub : submenu (set_checked (flag_after n nd) nd) = VList children)
      by reflexivity.
    rewrite Hsub.
    assert (Htr : truthy (VList children) = true).
    { destruct children; [congruence | reflexivity]. }
    rewrite Htr. rewrite (bind_assoc _ _ _ n1). rewrite (bind_as _ _ _ _ _ Hrec).
    unfold bind at 1, ret at 1. rewrite (bind_as _ _ _ _ _ Hloop).
    eexists. exists n3, (ev1 ++ ev2 ++ ev3)%list. split; [reflexivity |].
    split; [| split; [| split]].
    + rewrite !walk_tree_cons. unfold submenu_node. fold nd. cbn [walk].
      assert (Hl1 : is_leaf nd = false) by reflexivity.
      assert (Hl2 : is_leaf (set_submenu (VList children')
                               (set_checked (flag_after n nd) nd)) = false)
        by reflexivity.
      rewrite Hl1, Hl2. cbn [submenu set_submenu nd set_callback app].
      constructor; [| apply Forall2_app].
      * unfold refreshed_node. cbn. repeat split.
      * eapply Forall2_impl; [exact Hwc |]. intros a b. apply refreshed_node_ext.
        exact Hret1.
      * eapply Forall2_impl; [exact Hw |]. intros a b. apply refreshed_node_ext.
        congruence.
    + rewrite Hlog3, Hlog2, Hlog1, <- !app_assoc. reflexivity.
    + apply Forall_app. split; [assumption |]. apply Forall_app. split; assumption.
    + congruence.
Qed.

End Refreshing_facts.

Section Refreshing_the_menu.

Variables MFS_CHECKED MFS_UNCHECKED MF_BYPOSITION : Z.

(** X22. The menu of a controller whose nodes are tidy: an action or
    children, not both, and a place in a built menu that is an integer or
    none.  [_refresh_menu_options] returns on it.  It visits every node of
    the menu, the children of submenus too, and leaves each as it was but for
    the flag of a checkbox, which is what its hook answers now.  Nothing else
    of the controller changes, the caller's lists are left alone, and the
    shell sees calls of [CheckMenuItem] only. *)
Theorem refresh_visits_every_node
    icon hover_text menu_options on_quit default_menu_index s s' s1 :
  SysTrayIcon_init icon hover_text menu_options on_quit default_menu_index s
    = (Return tt, s') ->
  Forall tidy (walk_tree (_menu_options (self s'))) ->
  self s1 = self s' ->
  exists s2 evs,
    _refresh_menu_options MFS_CHECKED MFS_UNCHECKED MF_BYPOSITION s1 = (Return tt, s2) /\
    heap s2 = heap s1 /\
    self s2 = set_menu_options (_menu_options (self s2)) (self s1) /\
    Forall2 (refreshed_node (os s1))
      (walk_tree (_menu_options (self s1))) (walk_tree (_menu_options (self s2))) /\
    log (os s2) = (log (os s1) ++ evs)%list /\
    Forall is_CheckMenuItem evs /\
    returns (os s2) = returns (os s1).
Proof.
  intros Hinit Htidy Hself.
  destruct (init_numbered _ _ _ _ _ _ _ Hinit) as (t & Hn & _ & _).
  rewrite <- Hself in Hn, Htidy.
  destruct (refresh_loop_numbered MFS_CHECKED MFS_UNCHECKED MF_BYPOSITION _ _ _ _ Hn Htidy
              (depth (VList (_menu_options (self s1)))) (os s1) (le_n _))
    as (tree' & n' & evs & Hloop & Hw & Hlog & Hev & Hret).
  unfold _refresh_menu_options. unfold bind at 1, gets at 1.
  assert (Hrun : on_os (refresh_fuel MFS_CHECKED MFS_UNCHECKED MF_BYPOSITION
                          (S (depth (VList (_menu_options (self s1)))))
                          (VList (_menu_options (self s1)))) s1 =
                 (Return (VList tree'), mkMachine (self s1) (heap s1) n')).
  { unfold on_os. cbn [refresh_fuel iterate lift]. unfold bind at 1, ret at 1.
    rewrite (bind_as _ _ _ _ _ Hloop). reflexivity. }
  rewrite (bind_as _ _ _ _ _ Hrun).
  eexists. exists evs. split; [reflexivity |]. cbn.
  split; [reflexivity |]. split; [reflexivity |]. split; [exact Hw |].
  split; [exact Hlog |]. split; [exact Hev | exact Hret].
Qed.

Lemma iterate_cons_truthy v x xs : iterate v = inr (x :: xs) -> truthy v = true.
Proof.
  destruct v as [| b | z | str | f | l | l | kv | o | c]; simpl; try discriminate.
  - destruct str; simpl; [discriminate | reflexivity].
  - intros [= ->]. reflexivity.
  - intros [= ->]. reflexivity.
  - destruct kv; simpl; [discriminate | reflexivity].
Qed.

Lemma refresh_item_no_node recur x n :
  (forall c, x <> VObj c) ->
  refresh_item MFS_CHECKED MFS_UNCHECKED MF_BYPOSITION recur x n =
  (Raise (AttributeError ("'" ++ type_name x ++ "' object has no attribute 'refresh'")), n).
Proof.
  intros H. destruct x; try reflexivity. exfalso. eapply H. reflexivity.
Qed.

Lemma numbered_first_leaf s e entries tree s' o :
  numbered s (e :: entries) tree s' -> to_menu_option e = inr o -> is_leaf o = true ->
  exists rest, tree = leaf_node s o :: rest.
Proof.
  intros Hn He Hl.
  inversion Hn as [| s0 e0 o0 entries0 tree0 t' Ho0 Hl0 Hn0
                   | s0 e0 o0 items children s2 entries0 tree0 t' Ho0 Hl0]; subst;
    rewrite He in Ho0; inversion Ho0; subst o0; [| congruence].
  eexists. reflexivity.
Qed.

(** X23. An entry with an action and with children of its own is a leaf
    for the compiler, which binds the action and keeps the children as the
    caller wrote them.  When such an entry comes first and the first of its
    children is not a [MenuOption] object (a tuple, say), the constructor
    accepts the menu but the menu cannot be refreshed, hence not shown:
    [_refresh_menu_options] steps into the children and raises the
    [AttributeError] of a value without [refresh]. *)
Theorem entry_with_action_and_children_breaks_refresh
    icon hover_text menu_options on_quit default_menu_index s s' e rest o x xs s1 :
  SysTrayIcon_init icon hover_text menu_options on_quit default_menu_index s
    = (Return tt, s') ->
  supplied menu_options s = e :: rest ->
  to_menu_option e = inr o ->
  is_leaf o = true ->
  menu_handle o = VNone ->
  iterate (submenu o) = inr (x :: xs) ->
  (forall c, x <> VObj c) ->
  self s1 = self s' ->
  fst (_refresh_menu_options MFS_CHECKED MFS_UNCHECKED MF_BYPOSITION s1) =
  Raise (AttributeError ("'" ++ type_name x ++ "' object has no attribute 'refresh'")).
Proof.
  intros Hinit Hsup He Hl Hh Hit Hx Hself.
  destruct (init_numbered _ _ _ _ _ _ _ Hinit) as (t & Hn & _ & _).
  rewrite Hsup in Hn. rewrite <- Hself in Hn. cbn [app] in Hn.
  destruct (numbered_first_leaf _ _ _ _ _ _ Hn He Hl) as (tree & Htree).
  unfold _refresh_menu_options. unfold bind at 1, gets at 1. rewrite Htree.
  set (s0 := reset_ids (first_attributes icon hover_text on_quit)) in *.
  set (nd := set_action_id (VInt (_next_action_id s0)) o).
  destruct (refresh_node MFS_CHECKED MFS_UNCHECKED MF_BYPOSITION nd (os s1) (or_introl Hh))
    as (n1 & ev1 & Hr & _).
  assert (Hrun : on_os (refresh_fuel MFS_CHECKED MFS_UNCHECKED MF_BYPOSITION
                          (S (depth (VList (leaf_node s0 o :: tree))))
                          (VList (leaf_node s0 o :: tree))) s1 =
                 (Raise (AttributeError
                           ("'" ++ type_name x ++ "' object has no attribute 'refresh'")),
                  mkMachine (self s1) (heap s1) n1)).
  { unfold on_os.
    change (depth (VList (leaf_node s0 o :: tree)))
      with (S (list_max (map depth (leaf_node s0 o :: tree)))).
    generalize (list_max (map depth (leaf_node s0 o :: tree))). intros k.
    cbn [refresh_fuel iterate lift]. unfold bind at 1, ret at 1.
    cbn [refresh_loop]. unfold leaf_node at 1. fold nd. unfold refresh_item at 1.
    rewrite (bind_assoc _ _ _ (os s1)). rewrite (bind_assoc _ _ _ (os s1)).
    rewrite (bind_as _ _ _ _ _ Hr).
    assert (Hsub : submenu (set_checked (flag_after (os s1) nd) nd) = submenu o)
      by reflexivity.
    rewrite Hsub. rewrite (iterate_cons_truthy _ _ _ Hit).
    unfold bind at 1. unfold bind at 1. unfold bind at 1. rewrite Hit.
    cbn [lift]. unfold ret at 1. unfold bind at 1. cbn [refresh_loop].
    unfold bind at 1. rewrite (refresh_item_no_node _ _ _ Hx). reflexivity. }
  unfold bind. rewrite Hrun. reflexivity.
Qed.

End Refreshing_the_menu.

(** ** The popup menu on concrete machines *)


Lemma refresh_visits_every_node_witness :
  exists s2 evs,
    _refresh_menu_options 8 0 1024 tray_B' = (Return tt, s2) /\
    heap s2 = heap tray_B' /\
    self s2 = set_menu_options (_menu_options (self s2)) (self tray_B') /\
    Forall2 (refreshed_node (os tray_B'))
      (walk_tree (_menu_options (self tray_B'))) (walk_tree (_menu_options (self s2))) /\
    log (os s2) = (log (os tray_B') ++ evs)%list /\
    Forall is_CheckMenuItem evs /\
    returns (os s2) = returns (os tray_B').
Proof.
  apply (refresh_visits_every_node 8 0 1024 None (VStr "tip") (ByValue (VList menu_B'))
           VNone None boot tray_B' tray_B').
  - vm_compute. reflexivity.
  - vm_compute.
    repeat (constructor;
            [split; [intros H; first [reflexivity | discriminate H] | left; reflexivity] |]).
    constructor.
  - reflexivity.
Defined.

Lemma entry_with_action_and_children_breaks_refresh_witness :
  fst (_refresh_menu_options 8 0 1024 tray_both) =
  Raise (AttributeError "'tuple' object has no attribute 'refresh'").
Proof.
  apply (entry_with_action_and_children_breaks_refresh 8 0 1024
           None (VStr "tip") (ByValue (VList [entry_both])) VNone None boot tray_both
           entry_both []
           (mkMenuOption KMenuOption (VStr "Both") VNone (VFun "both_cb")
              (VList [leaf "A" "cb_a"]) VNone VNone VNone VNone VNone VNone VNone)
           (leaf "A" "cb_a") [] tray_both).
  - vm_compute. reflexivity.
  - reflexivity.
  - reflexivity.
  - reflexivity.
  - reflexivity.
  - reflexivity.
  - intros c. discriminate.
  - reflexivity.
Defined.
